(** * The Rust helper shims ([rust/helpers]) against the kernel they wrap

    The C file [rust/helpers/helpers_combined.c] and the separate PCI helper
    file define small exported functions that let the Rust side call kernel
    macros and [static inline] functions.  Each shim is a straight-line C
    function, so it is embedded here as a finite program over the kernel
    primitives it calls; the kernel itself is a parameter (a [Kernel]
    handler), and a reference kernel gives the few primitives whose
    behaviour the properties below depend on.  The build (conditional
    compilation, [EXPORT_SYMBOL_GPL], [static_assert]) is embedded as a
    function from the configuration to the compiled image. *)

From Stdlib Require Import ZArith List String Bool Lia.
Import ListNotations.
Local Open Scope Z_scope.

(** ** Values, configuration and header constants *)

(** Scalars and pointers cross the boundary as machine words. *)
Definition val : Type := Z.

(** A C [bool] result. *)
Definition of_bool (b : bool) : val := if b then 1 else 0.

(** [&p->member], with the member's offset from the headers. *)
Definition field (p : val) (offset : Z) : val := p + offset.

(** The configuration symbols the shims are conditional on. *)
Inductive kopt : Set := CONFIG_NUMA | CONFIG_64BIT | CONFIG_DEBUG_SPINLOCK.

(** A kernel configuration says which symbols are defined. *)
Definition Kconfig : Type := kopt -> bool.

Definition BITS_PER_LONG (cfg : Kconfig) : Z :=
  if cfg CONFIG_64BIT then 64 else 32.

(** What the shims take from kernel headers that are not part of the helper
    sources: the layout of the structures whose members they touch and two
    constants.  They are parameters of the development. *)
Class KernelHeaders : Type := {
  offsetof_request_ref : Z;
  offsetof_work_struct_data : Z;
  offsetof_work_struct_lockdep_map : Z;
  offsetof_work_struct_entry : Z;
  offsetof_work_struct_func : Z;
  offsetof_list_head_next : Z;
  offsetof_list_head_prev : Z;
  WORK_DATA_INIT : val;
  LD_WAIT_CONFIG : val
}.

(** Header values of one LP64 build, for evaluating the model. *)
Definition lp64_headers : KernelHeaders := {|
  offsetof_request_ref := 136;
  offsetof_work_struct_data := 0;
  offsetof_work_struct_lockdep_map := 32;
  offsetof_work_struct_entry := 8;
  offsetof_work_struct_func := 24;
  offsetof_list_head_next := 0;
  offsetof_list_head_prev := 8;
  WORK_DATA_INIT := 68719476704;
  LD_WAIT_CONFIG := 2
|}.

(** The configuration with the given values of the three symbols. *)
Definition config_of (numa wide debug_spinlock : bool) : Kconfig :=
  fun o => match o with
           | CONFIG_NUMA => numa
           | CONFIG_64BIT => wide
           | CONFIG_DEBUG_SPINLOCK => debug_spinlock
           end.

(** A 64-bit configuration with NUMA and without spinlock debugging, its
    debugging variant, and a 32-bit configuration without NUMA. *)
Definition defconfig : Kconfig := config_of true true false.

Definition debug_config : Kconfig := config_of true true true.

Definition small_config : Kconfig := config_of false false false.

(** ** Kernel primitives and helper symbols *)

(** The kernel functions and macros the shims call. *)
Module K.
Inductive prim : Set :=
  | req_bvec | blk_mq_rq_to_pdu | blk_mq_rq_from_pdu
  | bio_advance_iter_single | __blk_mq_free_request | blk_mq_tag_to_rq
  | blk_rq_payload_bytes | blk_rq_nr_phys_segments | BUG | errname
  | num_possible_cpus | mdelay | dev_get_drvdata | dev_name | ERR_PTR
  | IS_ERR | PTR_ERR | folio_get | folio_put | folio_page | folio_pos
  | folio_size | folio_mark_uptodate | folio_set_error | folio_alloc
  | flush_dcache_folio | kmap_local_folio | kmap | kunmap | readb | readw
  | readl | readq | writeb | writew | writel | writeq | readb_relaxed
  | readw_relaxed | readl_relaxed | readq_relaxed | writeb_relaxed
  | writew_relaxed | writel_relaxed | writeq_relaxed | memcpy_fromio
  | kunit_get_current_test | mutex_lock | alloc_pages | kmap_local_page
  | kunmap_local | pci_set_drvdata | pci_get_drvdata | rcu_read_lock
  | rcu_read_unlock | REFCOUNT_INIT | refcount_inc | refcount_dec_and_test
  | signal_pending | spin_lock | spin_unlock | current | get_task_struct
  | put_task_struct | init_wait | pci_resource_start | atomic_inc_not_zero
  | atomic_dec_and_test | spinlock_check | __raw_spin_lock_init
  | spin_lock_init | __init_work | lockdep_init_map | INIT_LIST_HEAD.
End K.

(** The symbols the two helper files define. *)
Module Sym.
Inductive t : Set :=
  | rust_helper_req_bvec | rust_helper_blk_mq_rq_to_pdu
  | rust_helper_blk_mq_rq_from_pdu | rust_helper_bio_advance_iter_single
  | rust_helper_req_ref_inc_not_zero | rust_helper_req_ref_put_and_test
  | rust_helper_blk_mq_free_request_internal | rust_helper_blk_mq_tag_to_rq
  | rust_helper_blk_rq_payload_bytes | rust_helper_blk_rq_nr_phys_segments
  | rust_helper_BUG | rust_helper_errname | rust_helper_num_possible_cpus
  | rust_helper_mdelay | rust_helper_dev_get_drvdata | rust_helper_dev_name
  | rust_helper_ERR_PTR | rust_helper_IS_ERR | rust_helper_PTR_ERR
  | rust_helper_folio_get | rust_helper_folio_put | rust_helper_folio_page
  | rust_helper_folio_pos | rust_helper_folio_size
  | rust_helper_folio_mark_uptodate | rust_helper_folio_set_error
  | rust_helper_folio_alloc | rust_helper_flush_dcache_folio
  | rust_helper_kmap_local_folio | rust_helper_kmap | rust_helper_kunmap
  | rust_helper_readb | rust_helper_readw | rust_helper_readl
  | rust_helper_readq | rust_helper_writeb | rust_helper_writew
  | rust_helper_writel | rust_helper_writeq | rust_helper_readb_relaxed
  | rust_helper_readw_relaxed | rust_helper_readl_relaxed
  | rust_helper_readq_relaxed | rust_helper_writeb_relaxed
  | rust_helper_writew_relaxed | rust_helper_writel_relaxed
  | rust_helper_writeq_relaxed | rust_helper_memcpy_fromio
  | rust_helper_kunit_get_current_test | rust_helper_mutex_lock
  | rust_helper_alloc_pages | rust_helper_kmap_local_page
  | rust_helper_kunmap_local | rust_helper_pci_set_drvdata
  | rust_helper_pci_get_drvdata | rust_helper_rcu_read_lock
  | rust_helper_rcu_read_unlock | rust_helper_REFCOUNT_INIT
  | rust_helper_refcount_inc | rust_helper_refcount_dec_and_test
  | rust_helper_signal_pending | rust_helper___spin_lock_init
  | rust_helper_spin_lock | rust_helper_spin_unlock
  | rust_helper_get_current | rust_helper_get_task_struct
  | rust_helper_put_task_struct | rust_helper_init_wait
  | rust_helper_init_work_with_key | rust_helper_pci_resource_start.
Scheme Equality for t.
End Sym.

(** ** Shim programs *)

(** A shim body is a finite sequence of calls into the kernel and of stores
    through its pointer arguments. *)
Inductive prog (A : Type) : Type :=
| Ret (a : A)
| Call (p : K.prim) (args : list val) (k : val -> prog A)
| Exec (p : K.prim) (args : list val) (k : prog A)
| Store (addr v : val) (k : prog A).

Arguments Ret {A} a.
Arguments Call {A} p args k.
Arguments Exec {A} p args k.
Arguments Store {A} addr v k.

Fixpoint bind {A B : Type} (c : prog A) (f : A -> prog B) : prog B :=
  match c with
  | Ret a => f a
  | Call p args k => Call p args (fun v => bind (k v) f)
  | Exec p args k => Exec p args (bind k f)
  | Store addr v k => Store addr v (bind k f)
  end.

Declare Scope prog_scope.
Delimit Scope prog_scope with prog.
Bind Scope prog_scope with prog.
Notation "x <- c ;; k" := (bind c (fun x => k))
  (at level 61, c at next level, right associativity) : prog_scope.
Notation "c ;; k" := (bind c (fun _ => k))
  (at level 61, right associativity) : prog_scope.
Local Open Scope prog_scope.

(** [f(args)] for an [f] that returns a value. *)
Definition call (p : K.prim) (args : list val) : prog val :=
  Call p args (fun v => Ret v).

(** [f(args);] for an [f] that returns [void]. *)
Definition exec (p : K.prim) (args : list val) : prog unit :=
  Exec p args (Ret tt).

(** [*addr = v;] *)
Definition store (addr v : val) : prog unit :=
  Store addr v (Ret tt).

(** ** Running a program against a kernel *)

(** A call either comes back or never does (a fatal trap, a lock that is
    never released). *)
Inductive outcome (A S : Type) : Type :=
| Done (a : A) (s : S)
| Halt (s : S).

Arguments Done {A S} a s.
Arguments Halt {A S} s.

(** What is observable of a shim at the kernel boundary. *)
Inductive obs : Type :=
| OCall (p : K.prim) (args : list val)
| OExec (p : K.prim) (args : list val)
| OStore (addr v : val).

(** A kernel gives each primitive its meaning on the kernel state. *)
Record Kernel : Type := {
  kstate : Type;
  kcall : K.prim -> list val -> kstate -> outcome val kstate;
  kexec : K.prim -> list val -> kstate -> outcome unit kstate;
  kstore : val -> val -> kstate -> kstate
}.

(** [run Kn c s] is the trace of boundary operations of [c] from state [s]
    and how it ends. *)
Fixpoint run {A : Type} (Kn : Kernel) (c : prog A) (s : kstate Kn)
  : list obs * outcome A (kstate Kn) :=
  match c with
  | Ret a => ([], Done a s)
  | Call p args k =>
      match kcall Kn p args s with
      | Done v s' => let r := run Kn (k v) s' in (OCall p args :: fst r, snd r)
      | Halt s' => ([OCall p args], Halt s')
      end
  | Exec p args k =>
      match kexec Kn p args s with
      | Done _ s' => let r := run Kn k s' in (OExec p args :: fst r, snd r)
      | Halt s' => ([OExec p args], Halt s')
      end
  | Store addr v k =>
      let r := run Kn k (kstore Kn addr v s) in (OStore addr v :: fst r, snd r)
  end.

Definition trace {A : Type} (Kn : Kernel) (c : prog A) (s : kstate Kn)
  : list obs := fst (run Kn c s).

Definition result {A : Type} (Kn : Kernel) (c : prog A) (s : kstate Kn)
  : outcome A (kstate Kn) := snd (run Kn c s).

Definition returns {A S : Type} (o : outcome A S) : bool :=
  match o with Done _ _ => true | Halt _ => false end.

(** ** The calling convention of exported symbols *)

(** What a call through a symbol gives back: a word, or nothing for
    [void]. *)
Definition ret : Type := option val.

Definition returning (c : prog val) : prog ret := v <- c ;; Ret (Some v).

Definition returning_void (c : prog unit) : prog ret := c ;; Ret None.

(** A function of [n] word arguments. *)
Fixpoint nary (n : nat) (A : Type) : Type :=
  match n with
  | O => A
  | S n' => val -> nary n' A
  end.

Fixpoint apply_args {A : Type} (n : nat) : nary n A -> list val -> option A :=
  match n with
  | O => fun f args => match args with [] => Some f | _ :: _ => None end
  | S n' => fun f args =>
      match args with
      | a :: rest => apply_args n' (f a) rest
      | [] => None
      end
  end.

Definition func (n : nat) (f : nary n (prog val)) (args : list val)
  : option (prog ret) := option_map returning (apply_args n f args).

Definition proc (n : nat) (f : nary n (prog unit)) (args : list val)
  : option (prog ret) := option_map returning_void (apply_args n f args).

(** The kernel primitive a shim stands for, by the kind of its result. *)
Inductive callee : Type :=
| Fun (p : K.prim)
| Proc (p : K.prim).

(** Calling the primitive itself on [args]. *)
Definition direct (c : callee) (args : list val) : prog ret :=
  match c with
  | Fun p => returning (call p args)
  | Proc p => returning_void (exec p args)
  end.

(** ** The shims of [rust/helpers/helpers_combined.c]

    One definition per C function, in file order; the comment before each
    gives its lines in the file.  Argument and result conversions between
    the shim's prototype and the primitive's are those C applies to a direct
    call with the same arguments. *)
Module HelpersCombined.
Section Shims.
Context (cfg : Kconfig) {H : KernelHeaders}.

(* lines 5-8 *)
Definition rust_helper_req_bvec (rq : val) : prog val :=
  call K.req_bvec [rq].
(* lines 11-14 *)
Definition rust_helper_blk_mq_rq_to_pdu (rq : val) : prog val :=
  call K.blk_mq_rq_to_pdu [rq].
(* lines 17-20 *)
Definition rust_helper_blk_mq_rq_from_pdu (pdu : val) : prog val :=
  call K.blk_mq_rq_from_pdu [pdu].
(* lines 23-28 *)
Definition rust_helper_bio_advance_iter_single (bio iter bytes : val)
  : prog unit :=
  exec K.bio_advance_iter_single [bio; iter; bytes].
(* lines 32-35; the argument is [&req->ref] *)
Definition rust_helper_req_ref_inc_not_zero (req : val) : prog val :=
  call K.atomic_inc_not_zero [field req offsetof_request_ref].
(* lines 38-41; the argument is [&req->ref] *)
Definition rust_helper_req_ref_put_and_test (req : val) : prog val :=
  call K.atomic_dec_and_test [field req offsetof_request_ref].
(* lines 44-47; the primitive is [__blk_mq_free_request] *)
Definition rust_helper_blk_mq_free_request_internal (req : val) : prog unit :=
  exec K.__blk_mq_free_request [req].
(* lines 50-54 *)
Definition rust_helper_blk_mq_tag_to_rq (tags tag : val) : prog val :=
  call K.blk_mq_tag_to_rq [tags; tag].
(* lines 57-60 *)
Definition rust_helper_blk_rq_payload_bytes (rq : val) : prog val :=
  call K.blk_rq_payload_bytes [rq].
(* lines 63-66 *)
Definition rust_helper_blk_rq_nr_phys_segments (rq : val) : prog val :=
  call K.blk_rq_nr_phys_segments [rq].
(* lines 72-75 *)
Definition rust_helper_BUG : prog unit :=
  exec K.BUG [].
(* lines 107-110 *)
Definition rust_helper_errname (err : val) : prog val :=
  call K.errname [err].
(* lines 116-119 *)
Definition rust_helper_num_possible_cpus : prog val :=
  call K.num_possible_cpus [].
(* lines 125-128; [ms] is a [uint64_t] *)
Definition rust_helper_mdelay (ms : val) : prog unit :=
  exec K.mdelay [ms].
(* lines 134-137 *)
Definition rust_helper_dev_get_drvdata (dev : val) : prog val :=
  call K.dev_get_drvdata [dev].
(* lines 140-143 *)
Definition rust_helper_dev_name (dev : val) : prog val :=
  call K.dev_name [dev].
(* lines 150-153 *)
Definition rust_helper_ERR_PTR (err : val) : prog val :=
  call K.ERR_PTR [err].
(* lines 156-159 *)
Definition rust_helper_IS_ERR (ptr : val) : prog val :=
  call K.IS_ERR [ptr].
(* lines 162-165 *)
Definition rust_helper_PTR_ERR (ptr : val) : prog val :=
  call K.PTR_ERR [ptr].
(* lines 171-174 *)
Definition rust_helper_folio_get (folio : val) : prog unit :=
  exec K.folio_get [folio].
(* lines 177-180 *)
Definition rust_helper_folio_put (folio : val) : prog unit :=
  exec K.folio_put [folio].
(* lines 183-186 *)
Definition rust_helper_folio_page (folio n : val) : prog val :=
  call K.folio_page [folio; n].
(* lines 188-191 *)
Definition rust_helper_folio_pos (folio : val) : prog val :=
  call K.folio_pos [folio].
(* lines 194-197 *)
Definition rust_helper_folio_size (folio : val) : prog val :=
  call K.folio_size [folio].
(* lines 200-203 *)
Definition rust_helper_folio_mark_uptodate (folio : val) : prog unit :=
  exec K.folio_mark_uptodate [folio].
(* lines 206-209 *)
Definition rust_helper_folio_set_error (folio : val) : prog unit :=
  exec K.folio_set_error [folio].
(* lines 213-216, under #ifndef CONFIG_NUMA *)
Definition rust_helper_folio_alloc (gfp order : val) : prog val :=
  call K.folio_alloc [gfp; order].
(* lines 220-223 *)
Definition rust_helper_flush_dcache_folio (folio : val) : prog unit :=
  exec K.flush_dcache_folio [folio].
(* lines 226-229 *)
Definition rust_helper_kmap_local_folio (folio offset : val) : prog val :=
  call K.kmap_local_folio [folio; offset].
(* lines 232-235 *)
Definition rust_helper_kmap (page : val) : prog val :=
  call K.kmap [page].
(* lines 238-241; [return kunmap(page);] in a [void] function *)
Definition rust_helper_kunmap (page : val) : prog unit :=
  exec K.kunmap [page].
(* lines 247-250 *)
Definition rust_helper_readb (addr : val) : prog val :=
  call K.readb [addr].
(* lines 253-256 *)
Definition rust_helper_readw (addr : val) : prog val :=
  call K.readw [addr].
(* lines 259-262 *)
Definition rust_helper_readl (addr : val) : prog val :=
  call K.readl [addr].
(* lines 266-269, under #ifdef CONFIG_64BIT *)
Definition rust_helper_readq (addr : val) : prog val :=
  call K.readq [addr].
(* lines 273-276 *)
Definition rust_helper_writeb (value addr : val) : prog unit :=
  exec K.writeb [value; addr].
(* lines 279-282 *)
Definition rust_helper_writew (value addr : val) : prog unit :=
  exec K.writew [value; addr].
(* lines 285-288 *)
Definition rust_helper_writel (value addr : val) : prog unit :=
  exec K.writel [value; addr].
(* lines 292-295, under #ifdef CONFIG_64BIT *)
Definition rust_helper_writeq (value addr : val) : prog unit :=
  exec K.writeq [value; addr].
(* lines 299-302 *)
Definition rust_helper_readb_relaxed (addr : val) : prog val :=
  call K.readb_relaxed [addr].
(* lines 305-308 *)
Definition rust_helper_readw_relaxed (addr : val) : prog val :=
  call K.readw_relaxed [addr].
(* lines 311-314 *)
Definition rust_helper_readl_relaxed (addr : val) : prog val :=
  call K.readl_relaxed [addr].
(* lines 318-321, under #ifdef CONFIG_64BIT *)
Definition rust_helper_readq_relaxed (addr : val) : prog val :=
  call K.readq_relaxed [addr].
(* lines 325-328 *)
Definition rust_helper_writeb_relaxed (value addr : val) : prog unit :=
  exec K.writeb_relaxed [value; addr].
(* lines 331-334 *)
Definition rust_helper_writew_relaxed (value addr : val) : prog unit :=
  exec K.writew_relaxed [value; addr].
(* lines 337-340 *)
Definition rust_helper_writel_relaxed (value addr : val) : prog unit :=
  exec K.writel_relaxed [value; addr].
(* lines 344-347, under #ifdef CONFIG_64BIT *)
Definition rust_helper_writeq_relaxed (value addr : val) : prog unit :=
  exec K.writeq_relaxed [value; addr].
(* lines 351-354; [count] is a [long] *)
Definition rust_helper_memcpy_fromio (to from count : val) : prog unit :=
  exec K.memcpy_fromio [to; from; count].
(* lines 361-364 *)
Definition rust_helper_kunit_get_current_test : prog val :=
  call K.kunit_get_current_test [].
(* lines 371-374 *)
Definition rust_helper_mutex_lock (lock : val) : prog unit :=
  exec K.mutex_lock [lock].
(* lines 381-384 *)
Definition rust_helper_alloc_pages (gfp_mask order : val) : prog val :=
  call K.alloc_pages [gfp_mask; order].
(* lines 387-390 *)
Definition rust_helper_kmap_local_page (page : val) : prog val :=
  call K.kmap_local_page [page].
(* lines 393-396 *)
Definition rust_helper_kunmap_local (addr : val) : prog unit :=
  exec K.kunmap_local [addr].
(* lines 402-405 *)
Definition rust_helper_pci_set_drvdata (pdev data : val) : prog unit :=
  exec K.pci_set_drvdata [pdev; data].
(* lines 408-411 *)
Definition rust_helper_pci_get_drvdata (pdev : val) : prog val :=
  call K.pci_get_drvdata [pdev].
(* lines 417-420 *)
Definition rust_helper_rcu_read_lock : prog unit :=
  exec K.rcu_read_lock [].
(* lines 423-426 *)
Definition rust_helper_rcu_read_unlock : prog unit :=
  exec K.rcu_read_unlock [].
(* lines 433-436; the cast makes the macro's initialiser a value *)
Definition rust_helper_REFCOUNT_INIT (n : val) : prog val :=
  call K.REFCOUNT_INIT [n].
(* lines 439-442 *)
Definition rust_helper_refcount_inc (r : val) : prog unit :=
  exec K.refcount_inc [r].
(* lines 445-448 *)
Definition rust_helper_refcount_dec_and_test (r : val) : prog val :=
  call K.refcount_dec_and_test [r].
(* lines 455-458 *)
Definition rust_helper_signal_pending (t : val) : prog val :=
  call K.signal_pending [t].
(* lines 465-473; the branch is taken by the preprocessor *)
Definition rust_helper___spin_lock_init (lock name key : val) : prog unit :=
  if cfg CONFIG_DEBUG_SPINLOCK then
    rlock <- call K.spinlock_check [lock] ;;
    exec K.__raw_spin_lock_init [rlock; name; key; LD_WAIT_CONFIG]
  else
    exec K.spin_lock_init [lock].
(* lines 476-479 *)
Definition rust_helper_spin_lock (lock : val) : prog unit :=
  exec K.spin_lock [lock].
(* lines 482-485 *)
Definition rust_helper_spin_unlock (lock : val) : prog unit :=
  exec K.spin_unlock [lock].
(* lines 492-495; [current] is a macro without arguments *)
Definition rust_helper_get_current : prog val :=
  call K.current [].
(* lines 498-501 *)
Definition rust_helper_get_task_struct (t : val) : prog unit :=
  exec K.get_task_struct [t].
(* lines 504-507 *)
Definition rust_helper_put_task_struct (t : val) : prog unit :=
  exec K.put_task_struct [t].
(* lines 514-517 *)
Definition rust_helper_init_wait (wq_entry : val) : prog unit :=
  exec K.init_wait [wq_entry].
(* lines 524-533 *)
Definition rust_helper_init_work_with_key (work func onstack name key : val)
  : prog unit :=
  exec K.__init_work [work; onstack] ;;
  store (field work offsetof_work_struct_data) WORK_DATA_INIT ;;
  exec K.lockdep_init_map
    [field work offsetof_work_struct_lockdep_map; name; key; 0] ;;
  exec K.INIT_LIST_HEAD [field work offsetof_work_struct_entry] ;;
  store (field work offsetof_work_struct_func) func.

(** The function a call through symbol [w] with arguments [args] runs. *)
Definition entry (w : Sym.t) (args : list val) : option (prog ret) :=
  match w with
  | Sym.rust_helper_req_bvec => func 1 rust_helper_req_bvec
  | Sym.rust_helper_blk_mq_rq_to_pdu => func 1 rust_helper_blk_mq_rq_to_pdu
  | Sym.rust_helper_blk_mq_rq_from_pdu => func 1 rust_helper_blk_mq_rq_from_pdu
  | Sym.rust_helper_bio_advance_iter_single =>
      proc 3 rust_helper_bio_advance_iter_single
  | Sym.rust_helper_req_ref_inc_not_zero =>
      func 1 rust_helper_req_ref_inc_not_zero
  | Sym.rust_helper_req_ref_put_and_test =>
      func 1 rust_helper_req_ref_put_and_test
  | Sym.rust_helper_blk_mq_free_request_internal =>
      proc 1 rust_helper_blk_mq_free_request_internal
  | Sym.rust_helper_blk_mq_tag_to_rq => func 2 rust_helper_blk_mq_tag_to_rq
  | Sym.rust_helper_blk_rq_payload_bytes =>
      func 1 rust_helper_blk_rq_payload_bytes
  | Sym.rust_helper_blk_rq_nr_phys_segments =>
      func 1 rust_helper_blk_rq_nr_phys_segments
  | Sym.rust_helper_BUG => proc 0 rust_helper_BUG
  | Sym.rust_helper_errname => func 1 rust_helper_errname
  | Sym.rust_helper_num_possible_cpus => func 0 rust_helper_num_possible_cpus
  | Sym.rust_helper_mdelay => proc 1 rust_helper_mdelay
  | Sym.rust_helper_dev_get_drvdata => func 1 rust_helper_dev_get_drvdata
  | Sym.rust_helper_dev_name => func 1 rust_helper_dev_name
  | Sym.rust_helper_ERR_PTR => func 1 rust_helper_ERR_PTR
  | Sym.rust_helper_IS_ERR => func 1 rust_helper_IS_ERR
  | Sym.rust_helper_PTR_ERR => func 1 rust_helper_PTR_ERR
  | Sym.rust_helper_folio_get => proc 1 rust_helper_folio_get
  | Sym.rust_helper_folio_put => proc 1 rust_helper_folio_put
  | Sym.rust_helper_folio_page => func 2 rust_helper_folio_page
  | Sym.rust_helper_folio_pos => func 1 rust_helper_folio_pos
  | Sym.rust_helper_folio_size => func 1 rust_helper_folio_size
  | Sym.rust_helper_folio_mark_uptodate =>
      proc 1 rust_helper_folio_mark_uptodate
  | Sym.rust_helper_folio_set_error => proc 1 rust_helper_folio_set_error
  | Sym.rust_helper_folio_alloc => func 2 rust_helper_folio_alloc
  | Sym.rust_helper_flush_dcache_folio => proc 1 rust_helper_flush_dcache_folio
  | Sym.rust_helper_kmap_local_folio => func 2 rust_helper_kmap_local_folio
  | Sym.rust_helper_kmap => func 1 rust_helper_kmap
  | Sym.rust_helper_kunmap => proc 1 rust_helper_kunmap
  | Sym.rust_helper_readb => func 1 rust_helper_readb
  | Sym.rust_helper_readw => func 1 rust_helper_readw
  | Sym.rust_helper_readl => func 1 rust_helper_readl
  | Sym.rust_helper_readq => func 1 rust_helper_readq
  | Sym.rust_helper_writeb => proc 2 rust_helper_writeb
  | Sym.rust_helper_writew => proc 2 rust_helper_writew
  | Sym.rust_helper_writel => proc 2 rust_helper_writel
  | Sym.rust_helper_writeq => proc 2 rust_helper_writeq
  | Sym.rust_helper_readb_relaxed => func 1 rust_helper_readb_relaxed
  | Sym.rust_helper_readw_relaxed => func 1 rust_helper_readw_relaxed
  | Sym.rust_helper_readl_relaxed => func 1 rust_helper_readl_relaxed
  | Sym.rust_helper_readq_relaxed => func 1 rust_helper_readq_relaxed
  | Sym.rust_helper_writeb_relaxed => proc 2 rust_helper_writeb_relaxed
  | Sym.rust_helper_writew_relaxed => proc 2 rust_helper_writew_relaxed
  | Sym.rust_helper_writel_relaxed => proc 2 rust_helper_writel_relaxed
  | Sym.rust_helper_writeq_relaxed => proc 2 rust_helper_writeq_relaxed
  | Sym.rust_helper_memcpy_fromio => proc 3 rust_helper_memcpy_fromio
  | Sym.rust_helper_kunit_get_current_test =>
      func 0 rust_helper_kunit_get_current_test
  | Sym.rust_helper_mutex_lock => proc 1 rust_helper_mutex_lock
  | Sym.rust_helper_alloc_pages => func 2 rust_helper_alloc_pages
  | Sym.rust_helper_kmap_local_page => func 1 rust_helper_kmap_local_page
  | Sym.rust_helper_kunmap_local => proc 1 rust_helper_kunmap_local
  | Sym.rust_helper_pci_set_drvdata => proc 2 rust_helper_pci_set_drvdata
  | Sym.rust_helper_pci_get_drvdata => func 1 rust_helper_pci_get_drvdata
  | Sym.rust_helper_rcu_read_lock => proc 0 rust_helper_rcu_read_lock
  | Sym.rust_helper_rcu_read_unlock => proc 0 rust_helper_rcu_read_unlock
  | Sym.rust_helper_REFCOUNT_INIT => func 1 rust_helper_REFCOUNT_INIT
  | Sym.rust_helper_refcount_inc => proc 1 rust_helper_refcount_inc
  | Sym.rust_helper_refcount_dec_and_test =>
      func 1 rust_helper_refcount_dec_and_test
  | Sym.rust_helper_signal_pending => func 1 rust_helper_signal_pending
  | Sym.rust_helper___spin_lock_init => proc 3 rust_helper___spin_lock_init
  | Sym.rust_helper_spin_lock => proc 1 rust_helper_spin_lock
  | Sym.rust_helper_spin_unlock => proc 1 rust_helper_spin_unlock
  | Sym.rust_helper_get_current => func 0 rust_helper_get_current
  | Sym.rust_helper_get_task_struct => proc 1 rust_helper_get_task_struct
  | Sym.rust_helper_put_task_struct => proc 1 rust_helper_put_task_struct
  | Sym.rust_helper_init_wait => proc 1 rust_helper_init_wait
  | Sym.rust_helper_init_work_with_key => proc 5 rust_helper_init_work_with_key
  | Sym.rust_helper_pci_resource_start => fun _ => None
  end args.

End Shims.
End HelpersCombined.

(** ** The shims of the separate PCI helper file *)
Module Part000.

(* lines 6-9 *)
Definition rust_helper_pci_set_drvdata (pdev data : val) : prog unit :=
  exec K.pci_set_drvdata [pdev; data].
(* lines 12-15 *)
Definition rust_helper_pci_get_drvdata (pdev : val) : prog val :=
  call K.pci_get_drvdata [pdev].
(* lines 18-21 *)
Definition rust_helper_pci_resource_start (pdev bar : val) : prog val :=
  call K.pci_resource_start [pdev; bar].

Definition entry (w : Sym.t) (args : list val) : option (prog ret) :=
  match w with
  | Sym.rust_helper_pci_set_drvdata => proc 2 rust_helper_pci_set_drvdata
  | Sym.rust_helper_pci_get_drvdata => func 1 rust_helper_pci_get_drvdata
  | Sym.rust_helper_pci_resource_start => func 2 rust_helper_pci_resource_start
  | _ => fun _ => None
  end args.

End Part000.

(** The primitive each shim forwards to, for the shims that are one call of
    one primitive on their own parameters. *)
Definition wrapped (w : Sym.t) : option callee :=
  match w with
  | Sym.rust_helper_req_bvec => Some (Fun K.req_bvec)
  | Sym.rust_helper_blk_mq_rq_to_pdu => Some (Fun K.blk_mq_rq_to_pdu)
  | Sym.rust_helper_blk_mq_rq_from_pdu => Some (Fun K.blk_mq_rq_from_pdu)
  | Sym.rust_helper_bio_advance_iter_single =>
      Some (Proc K.bio_advance_iter_single)
  | Sym.rust_helper_req_ref_inc_not_zero => None
  | Sym.rust_helper_req_ref_put_and_test => None
  | Sym.rust_helper_blk_mq_free_request_internal =>
      Some (Proc K.__blk_mq_free_request)
  | Sym.rust_helper_blk_mq_tag_to_rq => Some (Fun K.blk_mq_tag_to_rq)
  | Sym.rust_helper_blk_rq_payload_bytes => Some (Fun K.blk_rq_payload_bytes)
  | Sym.rust_helper_blk_rq_nr_phys_segments =>
      Some (Fun K.blk_rq_nr_phys_segments)
  | Sym.rust_helper_BUG => Some (Proc K.BUG)
  | Sym.rust_helper_errname => Some (Fun K.errname)
  | Sym.rust_helper_num_possible_cpus => Some (Fun K.num_possible_cpus)
  | Sym.rust_helper_mdelay => Some (Proc K.mdelay)
  | Sym.rust_helper_dev_get_drvdata => Some (Fun K.dev_get_drvdata)
  | Sym.rust_helper_dev_name => Some (Fun K.dev_name)
  | Sym.rust_helper_ERR_PTR => Some (Fun K.ERR_PTR)
  | Sym.rust_helper_IS_ERR => Some (Fun K.IS_ERR)
  | Sym.rust_helper_PTR_ERR => Some (Fun K.PTR_ERR)
  | Sym.rust_helper_folio_get => Some (Proc K.folio_get)
  | Sym.rust_helper_folio_put => Some (Proc K.folio_put)
  | Sym.rust_helper_folio_page => Some (Fun K.folio_page)
  | Sym.rust_helper_folio_pos => Some (Fun K.folio_pos)
  | Sym.rust_helper_folio_size => Some (Fun K.folio_size)
  | Sym.rust_helper_folio_mark_uptodate => Some (Proc K.folio_mark_uptodate)
  | Sym.rust_helper_folio_set_error => Some (Proc K.folio_set_error)
  | Sym.rust_helper_folio_alloc => Some (Fun K.folio_alloc)
  | Sym.rust_helper_flush_dcache_folio => Some (Proc K.flush_dcache_folio)
  | Sym.rust_helper_kmap_local_folio => Some (Fun K.kmap_local_folio)
  | Sym.rust_helper_kmap => Some (Fun K.kmap)
  | Sym.rust_helper_kunmap => Some (Proc K.kunmap)
  | Sym.rust_helper_readb => Some (Fun K.readb)
  | Sym.rust_helper_readw => Some (Fun K.readw)
  | Sym.rust_helper_readl => Some (Fun K.readl)
  | Sym.rust_helper_readq => Some (Fun K.readq)
  | Sym.rust_helper_writeb => Some (Proc K.writeb)
  | Sym.rust_helper_writew => Some (Proc K.writew)
  | Sym.rust_helper_writel => Some (Proc K.writel)
  | Sym.rust_helper_writeq => Some (Proc K.writeq)
  | Sym.rust_helper_readb_relaxed => Some (Fun K.readb_relaxed)
  | Sym.rust_helper_readw_relaxed => Some (Fun K.readw_relaxed)
  | Sym.rust_helper_readl_relaxed => Some (Fun K.readl_relaxed)
  | Sym.rust_helper_readq_relaxed => Some (Fun K.readq_relaxed)
  | Sym.rust_helper_writeb_relaxed => Some (Proc K.writeb_relaxed)
  | Sym.rust_helper_writew_relaxed => Some (Proc K.writew_relaxed)
  | Sym.rust_helper_writel_relaxed => Some (Proc K.writel_relaxed)
  | Sym.rust_helper_writeq_relaxed => Some (Proc K.writeq_relaxed)
  | Sym.rust_helper_memcpy_fromio => Some (Proc K.memcpy_fromio)
  | Sym.rust_helper_kunit_get_current_test =>
      Some (Fun K.kunit_get_current_test)
  | Sym.rust_helper_mutex_lock => Some (Proc K.mutex_lock)
  | Sym.rust_helper_alloc_pages => Some (Fun K.alloc_pages)
  | Sym.rust_helper_kmap_local_page => Some (Fun K.kmap_local_page)
  | Sym.rust_helper_kunmap_local => Some (Proc K.kunmap_local)
  | Sym.rust_helper_pci_set_drvdata => Some (Proc K.pci_set_drvdata)
  | Sym.rust_helper_pci_get_drvdata => Some (Fun K.pci_get_drvdata)
  | Sym.rust_helper_rcu_read_lock => Some (Proc K.rcu_read_lock)
  | Sym.rust_helper_rcu_read_unlock => Some (Proc K.rcu_read_unlock)
  | Sym.rust_helper_REFCOUNT_INIT => Some (Fun K.REFCOUNT_INIT)
  | Sym.rust_helper_refcount_inc => Some (Proc K.refcount_inc)
  | Sym.rust_helper_refcount_dec_and_test => Some (Fun K.refcount_dec_and_test)
  | Sym.rust_helper_signal_pending => Some (Fun K.signal_pending)
  | Sym.rust_helper___spin_lock_init => None
  | Sym.rust_helper_spin_lock => Some (Proc K.spin_lock)
  | Sym.rust_helper_spin_unlock => Some (Proc K.spin_unlock)
  | Sym.rust_helper_get_current => Some (Fun K.current)
  | Sym.rust_helper_get_task_struct => Some (Proc K.get_task_struct)
  | Sym.rust_helper_put_task_struct => Some (Proc K.put_task_struct)
  | Sym.rust_helper_init_wait => Some (Proc K.init_wait)
  | Sym.rust_helper_init_work_with_key => None
  | Sym.rust_helper_pci_resource_start => Some (Fun K.pci_resource_start)
  end.

(** ** The build: preprocessing, static assertions, exported symbols *)

(** What the C implementation fixes about the two integer types the static
    assertion compares. *)
Record platform : Type := {
  sizeof_size_t : Z;
  alignof_size_t : Z;
  sizeof_uintptr_t : Z;
  alignof_uintptr_t : Z
}.

(** The guard a declaration sits under. *)
Inductive guard : Type :=
| Always
| IfDef (o : kopt)
| IfNDef (o : kopt).

(** The top-level declarations of a helper file. *)
Inductive decl : Type :=
| Fn (w : Sym.t)
| ExportSymbolGpl (w : Sym.t)
| StaticAssert (cond : platform -> bool) (msg : string).

Definition translation_unit : Type := list (guard * decl).

(** Lines 97-101 of [helpers_combined.c]. *)
Definition size_t_matches_uintptr_t (pf : platform) : bool :=
  (sizeof_size_t pf =? sizeof_uintptr_t pf)
  && (alignof_size_t pf =? alignof_uintptr_t pf).

Definition size_t_message : string :=
  "Rust code expects C `size_t` to match Rust `usize`".

(** [rust/helpers/helpers_combined.c], declaration by declaration. *)
Definition helpers_combined_c : translation_unit :=
  [
    (Always, Fn Sym.rust_helper_req_bvec);
    (Always, ExportSymbolGpl Sym.rust_helper_req_bvec);
    (Always, Fn Sym.rust_helper_blk_mq_rq_to_pdu);
    (Always, ExportSymbolGpl Sym.rust_helper_blk_mq_rq_to_pdu);
    (Always, Fn Sym.rust_helper_blk_mq_rq_from_pdu);
    (Always, ExportSymbolGpl Sym.rust_helper_blk_mq_rq_from_pdu);
    (Always, Fn Sym.rust_helper_bio_advance_iter_single);
    (Always, ExportSymbolGpl Sym.rust_helper_bio_advance_iter_single);
    (Always, Fn Sym.rust_helper_req_ref_inc_not_zero);
    (Always, ExportSymbolGpl Sym.rust_helper_req_ref_inc_not_zero);
    (Always, Fn Sym.rust_helper_req_ref_put_and_test);
    (Always, ExportSymbolGpl Sym.rust_helper_req_ref_put_and_test);
    (Always, Fn Sym.rust_helper_blk_mq_free_request_internal);
    (Always, ExportSymbolGpl Sym.rust_helper_blk_mq_free_request_internal);
    (Always, Fn Sym.rust_helper_blk_mq_tag_to_rq);
    (Always, ExportSymbolGpl Sym.rust_helper_blk_mq_tag_to_rq);
    (Always, Fn Sym.rust_helper_blk_rq_payload_bytes);
    (Always, ExportSymbolGpl Sym.rust_helper_blk_rq_payload_bytes);
    (Always, Fn Sym.rust_helper_blk_rq_nr_phys_segments);
    (Always, ExportSymbolGpl Sym.rust_helper_blk_rq_nr_phys_segments);
    (Always, Fn Sym.rust_helper_BUG);
    (Always, ExportSymbolGpl Sym.rust_helper_BUG);
    (Always, StaticAssert size_t_matches_uintptr_t size_t_message);
    (Always, Fn Sym.rust_helper_errname);
    (Always, ExportSymbolGpl Sym.rust_helper_errname);
    (Always, Fn Sym.rust_helper_num_possible_cpus);
    (Always, ExportSymbolGpl Sym.rust_helper_num_possible_cpus);
    (Always, Fn Sym.rust_helper_mdelay);
    (Always, ExportSymbolGpl Sym.rust_helper_mdelay);
    (Always, Fn Sym.rust_helper_dev_get_drvdata);
    (Always, ExportSymbolGpl Sym.rust_helper_dev_get_drvdata);
    (Always, Fn Sym.rust_helper_dev_name);
    (Always, ExportSymbolGpl Sym.rust_helper_dev_name);
    (Always, Fn Sym.rust_helper_ERR_PTR);
    (Always, ExportSymbolGpl Sym.rust_helper_ERR_PTR);
    (Always, Fn Sym.rust_helper_IS_ERR);
    (Always, ExportSymbolGpl Sym.rust_helper_IS_ERR);
    (Always, Fn Sym.rust_helper_PTR_ERR);
    (Always, ExportSymbolGpl Sym.rust_helper_PTR_ERR);
    (Always, Fn Sym.rust_helper_folio_get);
    (Always, ExportSymbolGpl Sym.rust_helper_folio_get);
    (Always, Fn Sym.rust_helper_folio_put);
    (Always, ExportSymbolGpl Sym.rust_helper_folio_put);
    (Always, Fn Sym.rust_helper_folio_page);
    (* line 187 is blank: no export follows the function *)
    (Always, Fn Sym.rust_helper_folio_pos);
    (Always, ExportSymbolGpl Sym.rust_helper_folio_pos);
    (Always, Fn Sym.rust_helper_folio_size);
    (Always, ExportSymbolGpl Sym.rust_helper_folio_size);
    (Always, Fn Sym.rust_helper_folio_mark_uptodate);
    (Always, ExportSymbolGpl Sym.rust_helper_folio_mark_uptodate);
    (Always, Fn Sym.rust_helper_folio_set_error);
    (Always, ExportSymbolGpl Sym.rust_helper_folio_set_error);
    (IfNDef CONFIG_NUMA, Fn Sym.rust_helper_folio_alloc);
    (IfNDef CONFIG_NUMA, ExportSymbolGpl Sym.rust_helper_folio_alloc);
    (Always, Fn Sym.rust_helper_flush_dcache_folio);
    (Always, ExportSymbolGpl Sym.rust_helper_flush_dcache_folio);
    (Always, Fn Sym.rust_helper_kmap_local_folio);
    (Always, ExportSymbolGpl Sym.rust_helper_kmap_local_folio);
    (Always, Fn Sym.rust_helper_kmap);
    (Always, ExportSymbolGpl Sym.rust_helper_kmap);
    (Always, Fn Sym.rust_helper_kunmap);
    (Always, ExportSymbolGpl Sym.rust_helper_kunmap);
    (Always, Fn Sym.rust_helper_readb);
    (Always, ExportSymbolGpl Sym.rust_helper_readb);
    (Always, Fn Sym.rust_helper_readw);
    (Always, ExportSymbolGpl Sym.rust_helper_readw);
    (Always, Fn Sym.rust_helper_readl);
    (Always, ExportSymbolGpl Sym.rust_helper_readl);
    (IfDef CONFIG_64BIT, Fn Sym.rust_helper_readq);
    (IfDef CONFIG_64BIT, ExportSymbolGpl Sym.rust_helper_readq);
    (Always, Fn Sym.rust_helper_writeb);
    (Always, ExportSymbolGpl Sym.rust_helper_writeb);
    (Always, Fn Sym.rust_helper_writew);
    (Always, ExportSymbolGpl Sym.rust_helper_writew);
    (Always, Fn Sym.rust_helper_writel);
    (Always, ExportSymbolGpl Sym.rust_helper_writel);
    (IfDef CONFIG_64BIT, Fn Sym.rust_helper_writeq);
    (IfDef CONFIG_64BIT, ExportSymbolGpl Sym.rust_helper_writeq);
    (Always, Fn Sym.rust_helper_readb_relaxed);
    (Always, ExportSymbolGpl Sym.rust_helper_readb_relaxed);
    (Always, Fn Sym.rust_helper_readw_relaxed);
    (Always, ExportSymbolGpl Sym.rust_helper_readw_relaxed);
    (Always, Fn Sym.rust_helper_readl_relaxed);
    (Always, ExportSymbolGpl Sym.rust_helper_readl_relaxed);
    (IfDef CONFIG_64BIT, Fn Sym.rust_helper_readq_relaxed);
    (IfDef CONFIG_64BIT, ExportSymbolGpl Sym.rust_helper_readq_relaxed);
    (Always, Fn Sym.rust_helper_writeb_relaxed);
    (Always, ExportSymbolGpl Sym.rust_helper_writeb_relaxed);
    (Always, Fn Sym.rust_helper_writew_relaxed);
    (Always, ExportSymbolGpl Sym.rust_helper_writew_relaxed);
    (Always, Fn Sym.rust_helper_writel_relaxed);
    (Always, ExportSymbolGpl Sym.rust_helper_writel_relaxed);
    (IfDef CONFIG_64BIT, Fn Sym.rust_helper_writeq_relaxed);
    (IfDef CONFIG_64BIT, ExportSymbolGpl Sym.rust_helper_writeq_relaxed);
    (Always, Fn Sym.rust_helper_memcpy_fromio);
    (Always, ExportSymbolGpl Sym.rust_helper_memcpy_fromio);
    (Always, Fn Sym.rust_helper_kunit_get_current_test);
    (Always, ExportSymbolGpl Sym.rust_helper_kunit_get_current_test);
    (Always, Fn Sym.rust_helper_mutex_lock);
    (Always, ExportSymbolGpl Sym.rust_helper_mutex_lock);
    (Always, Fn Sym.rust_helper_alloc_pages);
    (Always, ExportSymbolGpl Sym.rust_helper_alloc_pages);
    (Always, Fn Sym.rust_helper_kmap_local_page);
    (Always, ExportSymbolGpl Sym.rust_helper_kmap_local_page);
    (Always, Fn Sym.rust_helper_kunmap_local);
    (Always, ExportSymbolGpl Sym.rust_helper_kunmap_local);
    (Always, Fn Sym.rust_helper_pci_set_drvdata);
    (Always, ExportSymbolGpl Sym.rust_helper_pci_set_drvdata);
    (Always, Fn Sym.rust_helper_pci_get_drvdata);
    (Always, ExportSymbolGpl Sym.rust_helper_pci_get_drvdata);
    (Always, Fn Sym.rust_helper_rcu_read_lock);
    (Always, ExportSymbolGpl Sym.rust_helper_rcu_read_lock);
    (Always, Fn Sym.rust_helper_rcu_read_unlock);
    (Always, ExportSymbolGpl Sym.rust_helper_rcu_read_unlock);
    (Always, Fn Sym.rust_helper_REFCOUNT_INIT);
    (Always, ExportSymbolGpl Sym.rust_helper_REFCOUNT_INIT);
    (Always, Fn Sym.rust_helper_refcount_inc);
    (Always, ExportSymbolGpl Sym.rust_helper_refcount_inc);
    (Always, Fn Sym.rust_helper_refcount_dec_and_test);
    (Always, ExportSymbolGpl Sym.rust_helper_refcount_dec_and_test);
    (Always, Fn Sym.rust_helper_signal_pending);
    (Always, ExportSymbolGpl Sym.rust_helper_signal_pending);
    (Always, Fn Sym.rust_helper___spin_lock_init);
    (Always, ExportSymbolGpl Sym.rust_helper___spin_lock_init);
    (Always, Fn Sym.rust_helper_spin_lock);
    (Always, ExportSymbolGpl Sym.rust_helper_spin_lock);
    (Always, Fn Sym.rust_helper_spin_unlock);
    (Always, ExportSymbolGpl Sym.rust_helper_spin_unlock);
    (Always, Fn Sym.rust_helper_get_current);
    (Always, ExportSymbolGpl Sym.rust_helper_get_current);
    (Always, Fn Sym.rust_helper_get_task_struct);
    (Always, ExportSymbolGpl Sym.rust_helper_get_task_struct);
    (Always, Fn Sym.rust_helper_put_task_struct);
    (Always, ExportSymbolGpl Sym.rust_helper_put_task_struct);
    (Always, Fn Sym.rust_helper_init_wait);
    (Always, ExportSymbolGpl Sym.rust_helper_init_wait);
    (Always, Fn Sym.rust_helper_init_work_with_key);
    (Always, ExportSymbolGpl Sym.rust_helper_init_work_with_key)
  ].

(** The separate PCI helper file. *)
Definition part_000 : translation_unit :=
  [
    (Always, Fn Sym.rust_helper_pci_set_drvdata);
    (Always, ExportSymbolGpl Sym.rust_helper_pci_set_drvdata);
    (Always, Fn Sym.rust_helper_pci_get_drvdata);
    (Always, ExportSymbolGpl Sym.rust_helper_pci_get_drvdata);
    (Always, Fn Sym.rust_helper_pci_resource_start);
    (Always, ExportSymbolGpl Sym.rust_helper_pci_resource_start)
  ].

Definition active (cfg : Kconfig) (g : guard) : bool :=
  match g with
  | Always => true
  | IfDef o => cfg o
  | IfNDef o => negb (cfg o)
  end.

(** The declarations that survive the preprocessor. *)
Definition preprocess (cfg : Kconfig) (tu : translation_unit) : list decl :=
  map snd (filter (fun gd => active cfg (fst gd)) tu).

Definition functions (ds : list decl) : list Sym.t :=
  flat_map (fun d => match d with Fn w => [w] | _ => [] end) ds.

Definition exports (ds : list decl) : list Sym.t :=
  flat_map (fun d => match d with ExportSymbolGpl w => [w] | _ => [] end) ds.

(** The message of the first static assertion that fails, if any. *)
Fixpoint failed_assertion (pf : platform) (ds : list decl) : option string :=
  match ds with
  | [] => None
  | StaticAssert cond msg :: rest =>
      if cond pf then failed_assertion pf rest else Some msg
  | _ :: rest => failed_assertion pf rest
  end.

(** A compiled object: the functions it defines and the symbol table
    entries module loading resolves against. *)
Record image : Type := {
  text : list Sym.t;
  ksymtab : list Sym.t
}.

Definition compile (pf : platform) (cfg : Kconfig) (tu : translation_unit)
  : image + string :=
  let ds := preprocess cfg tu in
  match failed_assertion pf ds with
  | Some msg => inr msg
  | None => inl {| text := functions ds; ksymtab := exports ds |}
  end.

Definition mem_sym (w : Sym.t) (l : list Sym.t) : bool :=
  existsb (Sym.t_beq w) l.

(** The shims of a file that the configuration compiles in, and those of
    them a module can bind to. *)
Definition defined (cfg : Kconfig) (tu : translation_unit) (w : Sym.t)
  : bool := mem_sym w (functions (preprocess cfg tu)).

Definition exported (cfg : Kconfig) (tu : translation_unit) (w : Sym.t)
  : bool := mem_sym w (exports (preprocess cfg tu)).

(** Two platforms for evaluating the build. *)
Definition lp64 : platform := {|
  sizeof_size_t := 8; alignof_size_t := 8;
  sizeof_uintptr_t := 8; alignof_uintptr_t := 8
|}.

Definition narrow_size_t : platform := {|
  sizeof_size_t := 4; alignof_size_t := 4;
  sizeof_uintptr_t := 8; alignof_uintptr_t := 8
|}.

(** ** A reference kernel

    The primitives below live in kernel headers and sources that are not
    part of the helper files.  Those the properties depend on are given the
    behaviour the specification describes; every other primitive is opaque:
    it returns, with an answer the state supplies, and leaves the state as
    it is. *)
Module Ref.
Section Model.
Context (cfg : Kconfig) {H : KernelHeaders}.

Definition upd {A : Type} (m : val -> A) (a : val) (x : A) : val -> A :=
  fun b => if b =? a then x else m b.

(** A spinlock: whether it is held, and the name and lock-class key lock
    debugging recorded for it, if any. *)
Record spinlock : Type := {
  held : bool;
  dep_map : option (val * val)
}.

Record state : Type := {
  mem : val -> val;
  locks : val -> option spinlock;
  answers : K.prim -> list val -> val
}.

Definition set_mem (s : state) (m : val -> val) : state :=
  {| mem := m; locks := locks s; answers := answers s |}.

Definition set_lock (s : state) (lock : val) (l : spinlock) : state :=
  {| mem := mem s; locks := upd (locks s) lock (Some l);
     answers := answers s |}.

(** *** Error pointers *)

Definition as_ulong (x : Z) : Z := x mod 2 ^ BITS_PER_LONG cfg.

Definition as_long (x : Z) : Z :=
  let u := as_ulong x in
  if u <? 2 ^ (BITS_PER_LONG cfg - 1) then u else u - 2 ^ BITS_PER_LONG cfg.

(** Modelled from the spec: [MAX_ERRNO] of [linux/err.h], the size of the
    “reserved address range used to encode an error code”. *)
Definition MAX_ERRNO : Z := 4095.

(** Modelled from the spec: [ERR_PTR] of [linux/err.h], “encode an error
    code as a tagged pointer”: the [long] converted to a pointer. *)
Definition ERR_PTR (error : val) : val := as_ulong error.

(** Modelled from the spec: [IS_ERR] of [linux/err.h], “test whether a
    pointer is error-tagged”: the pointer lies in the reserved range, the
    top [MAX_ERRNO] addresses. *)
Definition IS_ERR (ptr : val) : bool :=
  as_ulong (- MAX_ERRNO) <=? as_ulong ptr.

(** Modelled from the spec: [PTR_ERR] of [linux/err.h], “decode the error
    code from a tagged pointer”: the pointer converted to [long]. *)
Definition PTR_ERR (ptr : val) : val := as_long ptr.

(** The codes the encoding is for: [-MAX_ERRNO .. -1]. *)
Definition is_errno (e : Z) : Prop := - MAX_ERRNO <= e < 0.

(** *** Atomic counters *)

(** Modelled from the spec: [atomic_inc_not_zero] of [linux/atomic.h], the
    “increment if nonzero” operation: on a count of 0 it returns the “did
    not increment” outcome, otherwise it adds one and succeeds.  The count
    is the spec's integer count of owners, for which it gives no width. *)
Definition atomic_inc_not_zero (v : val) (s : state) : outcome val state :=
  let c := mem s v in
  if c =? 0 then Done (of_bool false) s
  else Done (of_bool true) (set_mem s (upd (mem s) v (c + 1))).

(** Modelled from the spec: [atomic_dec_and_test] of [linux/atomic.h],
    “decrement-and-test-for-zero”. *)
Definition atomic_dec_and_test (v : val) (s : state) : outcome val state :=
  let c := mem s v - 1 in
  Done (of_bool (c =? 0)) (set_mem s (upd (mem s) v c)).

(** *** List heads *)

(** Modelled from the spec: [INIT_LIST_HEAD] of [linux/list.h], “reset the
    linkage node”: both links of the node point to the node itself. *)
Definition INIT_LIST_HEAD (list : val) (s : state) : outcome unit state :=
  let m := upd (mem s) (field list offsetof_list_head_next) list in
  Done tt (set_mem s (upd m (field list offsetof_list_head_prev) list)).

(** Modelled from the spec: [list_empty] of [linux/list.h], “the linkage
    node is empty”: the node's next link points to the node. *)
Definition list_empty (head : val) (s : state) : bool :=
  mem s (field head offsetof_list_head_next) =? head.

(** *** Spinlocks *)

(** Modelled from the spec: [spinlock_check] of [linux/spinlock.h]; the raw
    lock is the first member of the spinlock. *)
Definition spinlock_check (lock : val) (s : state) : outcome val state :=
  Done lock s.

(** Modelled from the spec: [__raw_spin_lock_init], the “debug-instrumented
    initialization path (records a name and a static lock-class key for
    lock-order diagnostics)”. *)
Definition __raw_spin_lock_init (lock name key inner : val) (s : state)
  : outcome unit state :=
  Done tt (set_lock s lock {| held := false; dep_map := Some (name, key) |}).

(** Modelled from the spec: [spin_lock_init] without lock debugging, the
    “plain fast initialization path”. *)
Definition spin_lock_init (lock : val) (s : state) : outcome unit state :=
  Done tt (set_lock s lock {| held := false; dep_map := None |}).

(** Modelled from the spec: [spin_lock], which “block[s] or spin[s]”: it
    takes a free initialised lock and never comes back from a held one that
    nobody releases. *)
Definition spin_lock (lock : val) (s : state) : outcome unit state :=
  match locks s lock with
  | Some l =>
      if held l then Halt s
      else Done tt (set_lock s lock {| held := true; dep_map := dep_map l |})
  | None => Halt s
  end.

(** Modelled from the spec: [spin_unlock], the release of a spinlock. *)
Definition spin_unlock (lock : val) (s : state) : outcome unit state :=
  match locks s lock with
  | Some l =>
      Done tt (set_lock s lock {| held := false; dep_map := dep_map l |})
  | None => Halt s
  end.

(** *** Fatal trap *)

(** Modelled from the spec: [BUG] of [linux/bug.h], the “fatal-trap
    primitive”, which never returns. *)
Definition BUG (s : state) : outcome unit state := Halt s.

(** *** The handler *)

Definition ref_kcall (p : K.prim) (args : list val) (s : state)
  : outcome val state :=
  match p, args with
  | K.ERR_PTR, [error] => Done (ERR_PTR error) s
  | K.IS_ERR, [ptr] => Done (of_bool (IS_ERR ptr)) s
  | K.PTR_ERR, [ptr] => Done (PTR_ERR ptr) s
  | K.atomic_inc_not_zero, [v] => atomic_inc_not_zero v s
  | K.atomic_dec_and_test, [v] => atomic_dec_and_test v s
  | K.spinlock_check, [lock] => spinlock_check lock s
  | _, _ => Done (answers s p args) s
  end.

Definition ref_kexec (p : K.prim) (args : list val) (s : state)
  : outcome unit state :=
  match p, args with
  | K.BUG, [] => BUG s
  | K.INIT_LIST_HEAD, [list] => INIT_LIST_HEAD list s
  | K.__raw_spin_lock_init, [lock; name; key; inner] =>
      __raw_spin_lock_init lock name key inner s
  | K.spin_lock_init, [lock] => spin_lock_init lock s
  | K.spin_lock, [lock] => spin_lock lock s
  | K.spin_unlock, [lock] => spin_unlock lock s
  | _, _ => Done tt s
  end.

Definition ref_kstore (addr v : val) (s : state) : state :=
  set_mem s (upd (mem s) addr v).

Definition kernel : Kernel := {|
  kstate := state;
  kcall := ref_kcall;
  kexec := ref_kexec;
  kstore := ref_kstore
|}.

End Model.

(** A state with zeroed memory and no initialised lock. *)
Definition boot : state := {|
  mem := fun _ => 0;
  locks := fun _ => None;
  answers := fun _ _ => 0
|}.

End Ref.

(** ** The specification's reading of the two composite shims *)

(** The five sub-steps of work-item initialisation, in the order the
    specification fixes: mark the item as not static data, reset the
    scheduling-state word, install the diagnostic tracking metadata, reset
    the linkage node, install the callback pointer. *)
Definition work_init_steps {H : KernelHeaders}
  (work func onstack name key : val) : list obs :=
  [ OExec K.__init_work [work; onstack];
    OStore (field work offsetof_work_struct_data) WORK_DATA_INIT;
    OExec K.lockdep_init_map
      [field work offsetof_work_struct_lockdep_map; name; key; 0];
    OExec K.INIT_LIST_HEAD [field work offsetof_work_struct_entry];
    OStore (field work offsetof_work_struct_func) func ].

(** The boundary operations of spinlock initialisation on the
    debug-instrumented path and on the plain one. *)
Definition spin_lock_init_steps {H : KernelHeaders} (debug : bool)
  (lock name key : val) : list obs :=
  if debug then
    [ OCall K.spinlock_check [lock];
      OExec K.__raw_spin_lock_init [lock; name; key; LD_WAIT_CONFIG] ]
  else
    [ OExec K.spin_lock_init [lock] ].

(** The shims that are not one call of one primitive on their own
    parameters. *)
Definition composite_shims : list Sym.t :=
  [ Sym.rust_helper_req_ref_inc_not_zero;
    Sym.rust_helper_req_ref_put_and_test;
    Sym.rust_helper___spin_lock_init;
    Sym.rust_helper_init_work_with_key ].

(** The 64-bit MMIO shims, each under [#ifdef CONFIG_64BIT]. *)
Definition wide_mmio_shims : list Sym.t :=
  [ Sym.rust_helper_readq; Sym.rust_helper_writeq;
    Sym.rust_helper_readq_relaxed; Sym.rust_helper_writeq_relaxed ].

(** ** Names

    The identifiers of the C text: the name each shim is defined and
    exported under, and the name of each kernel primitive as the shims
    write it. *)





(** ** Further notions for stating properties *)

(** The shims under a preprocessor guard (lines 212-218, 265-271, 291-297,
    317-323, 343-349). *)
Definition conditional_shims : list Sym.t :=
  Sym.rust_helper_folio_alloc :: wide_mmio_shims.

(** The symbols both helper files define. *)
Definition pci_drvdata_shims : list Sym.t :=
  [ Sym.rust_helper_pci_set_drvdata; Sym.rust_helper_pci_get_drvdata ].

(** No symbol occurs twice. *)
Fixpoint distinct (l : list Sym.t) : bool :=
  match l with
  | [] => true
  | w :: rest => negb (mem_sym w rest) && distinct rest
  end.

(** Every symbol of [l] occurs in [l']. *)
Definition included (l l' : list Sym.t) : bool :=
  forallb (fun w => mem_sym w l') l.

Definition is_store (o : obs) : bool :=
  match o with
  | OStore _ _ => true
  | _ => false
  end.

(** The statements of a shim's body that cross the kernel boundary: five
    in lines 528-532, two on the debug path of lines 468-472, one
    everywhere else. *)
Definition boundary_ops (cfg : Kconfig) (w : Sym.t) : nat :=
  if Sym.t_beq w Sym.rust_helper_init_work_with_key then 5
  else if Sym.t_beq w Sym.rust_helper___spin_lock_init
          && cfg CONFIG_DEBUG_SPINLOCK then 2
  else 1.


(** The values of a [long]. *)
Definition is_long (cfg : Kconfig) (x : Z) : Prop :=
  - 2 ^ (BITS_PER_LONG cfg - 1) <= x < 2 ^ (BITS_PER_LONG cfg - 1).

(** [is_errno], decided. *)
Definition is_errno_b (e : Z) : bool := (- Ref.MAX_ERRNO <=? e) && (e <? 0).

(** * Properties *)

Import HelpersCombined.

(** ** Running single calls *)

Lemma run_call (Kn : Kernel) (p : K.prim) (args : list val) (s : kstate Kn) :
  run Kn (call p args) s = ([OCall p args], kcall Kn p args s).
Proof.
  unfold call; simpl. destruct (kcall Kn p args s); reflexivity.
Qed.

Lemma run_exec (Kn : Kernel) (p : K.prim) (args : list val) (s : kstate Kn) :
  run Kn (exec p args) s = ([OExec p args], kexec Kn p args s).
Proof.
  unfold exec; simpl. destruct (kexec Kn p args s) as [[] s'|s']; reflexivity.
Qed.

Lemma trace_direct (Kn : Kernel) (c : callee) (args : list val)
  (s : kstate Kn) :
  trace Kn (direct c args) s
  = match c with Fun p => [OCall p args] | Proc p => [OExec p args] end.
Proof.
  unfold trace; destruct c as [p|p]; simpl.
  - destruct (kcall Kn p args s); reflexivity.
  - destruct (kexec Kn p args s); reflexivity.
Qed.

(** A run unfolded by its first statement. *)
Lemma run_bind_exec {A : Type} (Kn : Kernel) (p : K.prim) (args : list val)
  (k : prog A) (s : kstate Kn) :
  run Kn (exec p args ;; k) s
  = match kexec Kn p args s with
    | Done _ s' => (OExec p args :: fst (run Kn k s'), snd (run Kn k s'))
    | Halt s' => ([OExec p args], Halt s')
    end.
Proof. reflexivity. Qed.

Lemma run_bind_store {A : Type} (Kn : Kernel) (addr v : val) (k : prog A)
  (s : kstate Kn) :
  run Kn (store addr v ;; k) s
  = (OStore addr v :: fst (run Kn k (kstore Kn addr v s)),
     snd (run Kn k (kstore Kn addr v s))).
Proof. reflexivity. Qed.

(** ** Shims that forward *)

Ltac split_args He :=
  repeat match type of He with
         | context [apply_args _ _ ?l] =>
             destruct l; simpl in He; try discriminate He
         | context [match ?l with [] => _ | _ :: _ => _ end] =>
             destruct l; simpl in He; try discriminate He
         end.

Lemma combined_entry_is_direct (cfg : Kconfig) {H : KernelHeaders}
  (w : Sym.t) (c0 : callee) (args : list val) (c : prog ret) :
  wrapped w = Some c0 ->
  HelpersCombined.entry cfg w args = Some c ->
  c = direct c0 args.
Proof.
  intros Hw He.
  destruct w; simpl in Hw; try discriminate Hw;
    injection Hw as <-;
    cbv [HelpersCombined.entry func proc] in He; try discriminate He;
    split_args He; injection He as <-; reflexivity.
Qed.

Lemma part_000_entry_is_direct (w : Sym.t) (c0 : callee) (args : list val)
  (c : prog ret) :
  wrapped w = Some c0 ->
  Part000.entry w args = Some c ->
  c = direct c0 args.
Proof.
  intros Hw He.
  destruct w; simpl in He; try discriminate He;
    simpl in Hw; injection Hw as <-;
    cbv [Part000.entry func proc] in He;
    split_args He; injection He as <-; reflexivity.
Qed.

(** ** The composite shims against any kernel

    A run stops at the first primitive that does not come back, so the
    trace of the work-item initialiser is a prefix of its five steps, and
    all of them when it returns. *)

Lemma init_work_trace_prefix (Kn : Kernel) {H : KernelHeaders}
  (work func onstack name key : val) (s : kstate Kn) :
  exists n : nat,
    trace Kn (rust_helper_init_work_with_key work func onstack name key) s
    = firstn n (work_init_steps work func onstack name key).
Proof.
  unfold trace, rust_helper_init_work_with_key, work_init_steps.
  rewrite run_bind_exec.
  destruct (kexec Kn K.__init_work _ s) as [[] s1|s1];
    [|exists 1%nat; reflexivity].
  rewrite run_bind_store, run_bind_exec.
  destruct (kexec Kn K.lockdep_init_map _ _) as [[] s2|s2];
    [|exists 3%nat; reflexivity].
  rewrite run_bind_exec.
  destruct (kexec Kn K.INIT_LIST_HEAD _ s2) as [[] s3|s3];
    [exists 5%nat|exists 4%nat]; reflexivity.
Qed.

Lemma init_work_trace_complete (Kn : Kernel) {H : KernelHeaders}
  (work func onstack name key : val) (s : kstate Kn) :
  returns
    (result Kn (rust_helper_init_work_with_key work func onstack name key) s)
  = true ->
  trace Kn (rust_helper_init_work_with_key work func onstack name key) s
  = work_init_steps work func onstack name key.
Proof.
  unfold trace, result, rust_helper_init_work_with_key, work_init_steps.
  rewrite run_bind_exec.
  destruct (kexec Kn K.__init_work _ s) as [[] s1|s1];
    [|discriminate].
  rewrite run_bind_store, run_bind_exec.
  destruct (kexec Kn K.lockdep_init_map _ _) as [[] s2|s2];
    [|discriminate].
  rewrite run_bind_exec.
  destruct (kexec Kn K.INIT_LIST_HEAD _ s2) as [[] s3|s3];
    [reflexivity|discriminate].
Qed.

Lemma run_spin_lock_init (cfg : Kconfig) (Kn : Kernel) {H : KernelHeaders}
  (lock name key : val) (s : kstate Kn) :
  run Kn (rust_helper___spin_lock_init cfg lock name key) s
  = if cfg CONFIG_DEBUG_SPINLOCK then
      match kcall Kn K.spinlock_check [lock] s with
      | Done rlock s' =>
          ([ OCall K.spinlock_check [lock];
             OExec K.__raw_spin_lock_init [rlock; name; key; LD_WAIT_CONFIG] ],
           kexec Kn K.__raw_spin_lock_init
             [rlock; name; key; LD_WAIT_CONFIG] s')
      | Halt s' => ([OCall K.spinlock_check [lock]], Halt s')
      end
    else
      ([OExec K.spin_lock_init [lock]], kexec Kn K.spin_lock_init [lock] s).
Proof.
  unfold rust_helper___spin_lock_init.
  destruct (cfg CONFIG_DEBUG_SPINLOCK).
  - simpl. destruct (kcall Kn K.spinlock_check [lock] s) as [rlock s'|s'];
      [|reflexivity].
    simpl.
    destruct (kexec Kn K.__raw_spin_lock_init _ s') as [[] s2|s2];
      reflexivity.
  - apply run_exec.
Qed.

(** C1 (as amended).  Every shim that [wrapped] names a primitive for, in
    either helper file, behaves on every argument list and against every
    kernel exactly as a direct call of that primitive on the same
    arguments: same boundary trace, same result, same final state.  The
    shims without such a primitive are exactly the four composite ones:
    the two request reference-count shims call the atomic primitive on the
    address of the request's [ref] member and return its result unchanged;
    the spinlock initialiser runs the path its configuration selects; the
    work-item initialiser runs its sub-steps in order, up to the first that
    does not come back. *)
Theorem shims_forward_to_primitives (cfg : Kconfig) {H : KernelHeaders} :
  (forall (w : Sym.t) (c0 : callee) (args : list val) (c : prog ret),
      wrapped w = Some c0 ->
      HelpersCombined.entry cfg w args = Some c
      \/ Part000.entry w args = Some c ->
      forall (Kn : Kernel) (s : kstate Kn),
        run Kn c s = run Kn (direct c0 args) s)
  /\ (forall w : Sym.t, wrapped w = None <-> In w composite_shims)
  /\ (forall (Kn : Kernel) (s : kstate Kn) (req : val),
        run Kn (rust_helper_req_ref_inc_not_zero req) s
        = ([OCall K.atomic_inc_not_zero [field req offsetof_request_ref]],
           kcall Kn K.atomic_inc_not_zero [field req offsetof_request_ref] s)
        /\ run Kn (rust_helper_req_ref_put_and_test req) s
           = ([OCall K.atomic_dec_and_test [field req offsetof_request_ref]],
              kcall Kn K.atomic_dec_and_test
                [field req offsetof_request_ref] s))
  /\ (forall (Kn : Kernel) (s : kstate Kn) (lock name key : val),
        run Kn (rust_helper___spin_lock_init cfg lock name key) s
        = if cfg CONFIG_DEBUG_SPINLOCK then
            match kcall Kn K.spinlock_check [lock] s with
            | Done rlock s' =>
                ([ OCall K.spinlock_check [lock];
                   OExec K.__raw_spin_lock_init
                     [rlock; name; key; LD_WAIT_CONFIG] ],
                 kexec Kn K.__raw_spin_lock_init
                   [rlock; name; key; LD_WAIT_CONFIG] s')
            | Halt s' => ([OCall K.spinlock_check [lock]], Halt s')
            end
          else
            ([OExec K.spin_lock_init [lock]],
             kexec Kn K.spin_lock_init [lock] s))
  /\ (forall (Kn : Kernel) (s : kstate Kn)
        (work func onstack name key : val),
        let c := rust_helper_init_work_with_key work func onstack name key in
        (exists n : nat,
            trace Kn c s
            = firstn n (work_init_steps work func onstack name key))
        /\ (returns (result Kn c s) = true ->
            trace Kn c s = work_init_steps work func onstack name key)).
Proof.
  repeat split.
  - intros w c0 args c Hw [He|He] Kn s.
    + rewrite (combined_entry_is_direct cfg w c0 args c Hw He); reflexivity.
    + rewrite (part_000_entry_is_direct w c0 args c Hw He); reflexivity.
  - intros Hw. destruct w; simpl in Hw; try discriminate Hw;
      simpl; tauto.
  - intros Hin. simpl in Hin.
    destruct Hin as [<-|[<-|[<-|[<-|[]]]]]; reflexivity.
  - apply run_call.
  - apply run_call.
  - intros. apply run_spin_lock_init.
  - apply init_work_trace_prefix.
  - apply init_work_trace_complete.
Qed.

(** The forwarding part of C1 at [rust_helper_readl], against the reference
    kernel. *)
Lemma shims_forward_to_primitives_witness :
  run (Ref.kernel defconfig (H := lp64_headers))
    (returning (rust_helper_readl 4096)) Ref.boot
  = run (Ref.kernel defconfig (H := lp64_headers))
      (direct (Fun K.readl) [4096]) Ref.boot.
Proof.
  apply (proj1 (shims_forward_to_primitives defconfig (H := lp64_headers))
           Sym.rust_helper_readl (Fun K.readl) [4096]).
  - reflexivity.
  - left; reflexivity.
Defined.

(** C1 as stated fails: for each of the four composite shims there is an
    argument list on which what the shim does at the kernel boundary
    differs from a direct call of any one primitive on those arguments. *)
Lemma composite_shims_are_not_forwards :
  let Kn := Ref.kernel defconfig (H := lp64_headers) in
  let not_a_forward (w : Sym.t) (args : list val) :=
    exists c : prog ret,
      HelpersCombined.entry defconfig (H := lp64_headers) w args = Some c
      /\ forall c0 : callee,
          run Kn c Ref.boot <> run Kn (direct c0 args) Ref.boot in
  not_a_forward Sym.rust_helper_init_work_with_key [1000; 77; 0; 5; 6]
  /\ not_a_forward Sym.rust_helper___spin_lock_init [2000; 5; 6]
  /\ not_a_forward Sym.rust_helper_req_ref_inc_not_zero [3000]
  /\ not_a_forward Sym.rust_helper_req_ref_put_and_test [3000].
Proof.
  cbv zeta.
  repeat split;
    (eexists; split; [reflexivity|];
     intros c0 Heq; apply (f_equal fst) in Heq;
     change (fst (run ?K ?c ?s)) with (trace K c s) in Heq;
     rewrite trace_direct in Heq;
     destruct c0; vm_compute in Heq; discriminate Heq).
Qed.

(** ** The exported symbol set *)

(** Preprocessing reads the configuration only through the values of its
    symbols. *)
Lemma preprocess_config_of (cfg : Kconfig) (tu : translation_unit) :
  preprocess cfg tu
  = preprocess
      (config_of (cfg CONFIG_NUMA) (cfg CONFIG_64BIT)
         (cfg CONFIG_DEBUG_SPINLOCK)) tu.
Proof.
  unfold preprocess. f_equal. apply filter_ext.
  intros [g d]; destruct g as [|o|o]; simpl; try destruct o; reflexivity.
Qed.

Ltac by_config cfg :=
  unfold defined, exported, compile;
  rewrite !(preprocess_config_of cfg);
  destruct (cfg CONFIG_NUMA), (cfg CONFIG_64BIT),
    (cfg CONFIG_DEBUG_SPINLOCK).

(** C2.  Under every configuration [rust_helper_folio_page] (lines 183-186)
    is compiled into the helpers but has no [EXPORT_SYMBOL_GPL]: it is
    defined and not exported.  Every other shim of either helper file that
    is compiled in is exported. *)
Theorem folio_page_is_not_exported (cfg : Kconfig) :
  defined cfg helpers_combined_c Sym.rust_helper_folio_page = true
  /\ exported cfg helpers_combined_c Sym.rust_helper_folio_page = false
  /\ (forall w : Sym.t,
        Sym.t_beq w Sym.rust_helper_folio_page = false ->
        defined cfg helpers_combined_c w = true ->
        exported cfg helpers_combined_c w = true)
  /\ (forall w : Sym.t,
        defined cfg part_000 w = true -> exported cfg part_000 w = true).
Proof.
  split; [|split; [|split]].
  - by_config cfg; reflexivity.
  - by_config cfg; reflexivity.
  - intros w; by_config cfg; destruct w; vm_compute; intros Hw Hd;
      first [reflexivity | discriminate Hw | discriminate Hd].
  - intros w; by_config cfg; destruct w; vm_compute; intros Hd;
      first [reflexivity | discriminate Hd].
Qed.

(** C2 at the default configuration: [rust_helper_folio_pos], the next
    function of the file, is compiled in and exported. *)
Lemma folio_page_is_not_exported_witness :
  exported defconfig helpers_combined_c Sym.rust_helper_folio_pos = true.
Proof.
  apply (proj1 (proj2 (proj2 (folio_page_is_not_exported defconfig)))
           Sym.rust_helper_folio_pos).
  - reflexivity.
  - reflexivity.
Defined.

(** C7.  The folio-allocation shim is in the exported symbol set exactly
    when [CONFIG_NUMA] is not defined, and each of the four 64-bit MMIO
    shims (ordered and relaxed read and write) exactly when [CONFIG_64BIT]
    is; the same holds of their being compiled in at all. *)
Theorem conditional_shims_follow_config (cfg : Kconfig) :
  exported cfg helpers_combined_c Sym.rust_helper_folio_alloc
  = negb (cfg CONFIG_NUMA)
  /\ defined cfg helpers_combined_c Sym.rust_helper_folio_alloc
     = negb (cfg CONFIG_NUMA)
  /\ Forall
       (fun w =>
          exported cfg helpers_combined_c w = cfg CONFIG_64BIT
          /\ defined cfg helpers_combined_c w = cfg CONFIG_64BIT)
       wide_mmio_shims.
Proof.
  unfold wide_mmio_shims.
  split; [|split; [|repeat constructor]]; by_config cfg; reflexivity.
Qed.

(** C9.  Compiling the helpers succeeds exactly on the platforms where
    [size_t] has the size and the alignment of [uintptr_t]; on every other
    platform it stops with the static assertion's message, so no image
    exists in which the two types differ. *)
Theorem helpers_build_iff_size_t_matches (pf : platform) (cfg : Kconfig) :
  compile pf cfg helpers_combined_c
  = (if size_t_matches_uintptr_t pf
     then inl {| text := functions (preprocess cfg helpers_combined_c);
                 ksymtab := exports (preprocess cfg helpers_combined_c) |}
     else inr size_t_message)
  /\ (size_t_matches_uintptr_t pf = true
      <-> sizeof_size_t pf = sizeof_uintptr_t pf
          /\ alignof_size_t pf = alignof_uintptr_t pf).
Proof.
  split.
  - by_config cfg; cbn; destruct (size_t_matches_uintptr_t pf);
      reflexivity.
  - unfold size_t_matches_uintptr_t.
    rewrite andb_true_iff, !Z.eqb_eq. tauto.
Qed.

(** ** Error pointers *)

Lemma mod_of_negative (e M : Z) : - M <= e < 0 -> e mod M = e + M.
Proof.
  intros He. symmetry. apply (Z.mod_unique_pos e M (-1) (e + M)); lia.
Qed.

Lemma word_modulus (cfg : Kconfig) :
  2 ^ BITS_PER_LONG cfg = 2 * 2 ^ (BITS_PER_LONG cfg - 1)
  /\ Ref.MAX_ERRNO < 2 ^ (BITS_PER_LONG cfg - 1).
Proof.
  unfold BITS_PER_LONG, Ref.MAX_ERRNO.
  destruct (cfg CONFIG_64BIT); split; reflexivity.
Qed.

Lemma as_ulong_errno (cfg : Kconfig) (e : Z) :
  Ref.is_errno e -> Ref.as_ulong cfg e = e + 2 ^ BITS_PER_LONG cfg.
Proof.
  intros He. unfold Ref.as_ulong. apply mod_of_negative.
  destruct (word_modulus cfg). unfold Ref.is_errno in He. lia.
Qed.

Lemma as_ulong_pointer (cfg : Kconfig) (p : Z) :
  0 <= p < 2 ^ BITS_PER_LONG cfg -> Ref.as_ulong cfg p = p.
Proof. intros Hp. unfold Ref.as_ulong. apply Z.mod_small; exact Hp. Qed.

Lemma ERR_PTR_is_pointer (cfg : Kconfig) (e : Z) :
  Ref.is_errno e ->
  2 ^ BITS_PER_LONG cfg - Ref.MAX_ERRNO <= Ref.ERR_PTR cfg e
  < 2 ^ BITS_PER_LONG cfg.
Proof.
  intros He. unfold Ref.ERR_PTR. rewrite (as_ulong_errno cfg e He).
  unfold Ref.is_errno in He. lia.
Qed.

Lemma IS_ERR_ERR_PTR (cfg : Kconfig) (e : Z) :
  Ref.is_errno e -> Ref.IS_ERR cfg (Ref.ERR_PTR cfg e) = true.
Proof.
  intros He. pose proof (ERR_PTR_is_pointer cfg e He) as Hp.
  destruct (word_modulus cfg) as [Hw Hm].
  unfold Ref.IS_ERR. rewrite (as_ulong_pointer cfg (Ref.ERR_PTR cfg e)).
  - rewrite (as_ulong_errno cfg (- Ref.MAX_ERRNO)).
    + apply Z.leb_le. lia.
    + unfold Ref.is_errno, Ref.MAX_ERRNO. lia.
  - unfold Ref.MAX_ERRNO in *. lia.
Qed.

Lemma PTR_ERR_ERR_PTR (cfg : Kconfig) (e : Z) :
  Ref.is_errno e -> Ref.PTR_ERR cfg (Ref.ERR_PTR cfg e) = e.
Proof.
  intros He. pose proof (ERR_PTR_is_pointer cfg e He) as Hp.
  destruct (word_modulus cfg) as [Hw Hm].
  unfold Ref.PTR_ERR, Ref.as_long.
  rewrite (as_ulong_pointer cfg (Ref.ERR_PTR cfg e)).
  - unfold Ref.ERR_PTR in *. rewrite (as_ulong_errno cfg e He) in *.
    destruct (Z.ltb_spec (e + 2 ^ BITS_PER_LONG cfg)
                (2 ^ (BITS_PER_LONG cfg - 1))); unfold Ref.MAX_ERRNO in *; lia.
  - unfold Ref.MAX_ERRNO in *. lia.
Qed.

Lemma IS_ERR_only_on_encodings (cfg : Kconfig) (p : Z) :
  0 <= p < 2 ^ BITS_PER_LONG cfg ->
  (forall e, Ref.is_errno e -> Ref.ERR_PTR cfg e <> p) ->
  Ref.IS_ERR cfg p = false.
Proof.
  intros Hp Hne. destruct (word_modulus cfg) as [Hw Hm].
  unfold Ref.IS_ERR. rewrite (as_ulong_pointer cfg p Hp).
  rewrite (as_ulong_errno cfg (- Ref.MAX_ERRNO))
    by (unfold Ref.is_errno, Ref.MAX_ERRNO; lia).
  apply Z.leb_gt.
  destruct (Z.lt_ge_cases p (- Ref.MAX_ERRNO + 2 ^ BITS_PER_LONG cfg))
    as [Hlt|Hge]; [exact Hlt|exfalso].
  assert (He : Ref.is_errno (p - 2 ^ BITS_PER_LONG cfg))
    by (unfold Ref.is_errno; lia).
  apply (Hne _ He). unfold Ref.ERR_PTR.
  rewrite (as_ulong_errno cfg _ He). lia.
Qed.

(** C3.  Against the reference kernel of either word size: for every error
    code [e] in [-MAX_ERRNO .. -1], the encoding shim returns a pointer [p]
    on which the test shim returns true and the decoding shim returns [e];
    and on every pointer that is the encoding of no error code the test
    shim returns false. *)
Theorem err_ptr_round_trip (cfg : Kconfig) {H : KernelHeaders}
  (s : Ref.state) :
  let Kn := Ref.kernel cfg in
  (forall e : Z,
      Ref.is_errno e ->
      exists p : val,
        run Kn (rust_helper_ERR_PTR e) s = ([OCall K.ERR_PTR [e]], Done p s)
        /\ run Kn (rust_helper_IS_ERR p) s
           = ([OCall K.IS_ERR [p]], Done (of_bool true) s)
        /\ run Kn (rust_helper_PTR_ERR p) s
           = ([OCall K.PTR_ERR [p]], Done e s))
  /\ (forall p : val,
        0 <= p < 2 ^ BITS_PER_LONG cfg ->
        (forall e : Z, Ref.is_errno e -> Ref.ERR_PTR cfg e <> p) ->
        run Kn (rust_helper_IS_ERR p) s
        = ([OCall K.IS_ERR [p]], Done (of_bool false) s)).
Proof.
  split.
  - intros e He. exists (Ref.ERR_PTR cfg e).
    unfold rust_helper_ERR_PTR, rust_helper_IS_ERR, rust_helper_PTR_ERR.
    rewrite !run_call. cbn [kcall Ref.kernel Ref.ref_kcall].
    rewrite (IS_ERR_ERR_PTR cfg e He), (PTR_ERR_ERR_PTR cfg e He).
    repeat split.
  - intros p Hp Hne. unfold rust_helper_IS_ERR.
    rewrite run_call. cbn [kcall Ref.kernel Ref.ref_kcall].
    rewrite (IS_ERR_only_on_encodings cfg p Hp Hne). reflexivity.
Qed.

(** C3 at [-12] and at the ordinary pointer [4096], on a 64-bit kernel. *)
Lemma err_ptr_round_trip_witness :
  let Kn := Ref.kernel defconfig (H := lp64_headers) in
  (exists p : val,
      run Kn (rust_helper_ERR_PTR (-12)) Ref.boot
      = ([OCall K.ERR_PTR [-12]], Done p Ref.boot)
      /\ run Kn (rust_helper_IS_ERR p) Ref.boot
         = ([OCall K.IS_ERR [p]], Done (of_bool true) Ref.boot)
      /\ run Kn (rust_helper_PTR_ERR p) Ref.boot
         = ([OCall K.PTR_ERR [p]], Done (-12) Ref.boot))
  /\ run Kn (rust_helper_IS_ERR 4096) Ref.boot
     = ([OCall K.IS_ERR [4096]], Done (of_bool false) Ref.boot).
Proof.
  split.
  - apply (proj1 (err_ptr_round_trip defconfig (H := lp64_headers) Ref.boot)
             (-12)).
    unfold Ref.is_errno, Ref.MAX_ERRNO. lia.
  - apply (proj2 (err_ptr_round_trip defconfig (H := lp64_headers) Ref.boot)
             4096).
    + simpl. lia.
    + intros e He.
      pose proof (ERR_PTR_is_pointer defconfig e He) as Hp.
      simpl in Hp. unfold Ref.MAX_ERRNO in Hp. lia.
Defined.

(** ** Memory and lock tables of the reference kernel *)

Lemma upd_same {A : Type} (m : val -> A) (a : val) (x : A) :
  Ref.upd m a x a = x.
Proof. unfold Ref.upd. rewrite Z.eqb_refl. reflexivity. Qed.

Lemma upd_other {A : Type} (m : val -> A) (a b : val) (x : A) :
  b <> a -> Ref.upd m a x b = m b.
Proof.
  intros Hne. unfold Ref.upd.
  destruct (Z.eqb_spec b a); [contradiction|reflexivity].
Qed.

Lemma locks_set_lock (s : Ref.state) (lock : val) (l : Ref.spinlock) :
  Ref.locks (Ref.set_lock s lock l) lock = Some l.
Proof. apply upd_same. Qed.

Lemma run_spin_lock_free (cfg : Kconfig) {H : KernelHeaders} (s : Ref.state)
  (lock : val) (recorded : option (val * val)) :
  Ref.locks s lock = Some {| Ref.held := false; Ref.dep_map := recorded |} ->
  run (Ref.kernel cfg) (rust_helper_spin_lock lock) s
  = ([OExec K.spin_lock [lock]],
     Done tt
       (Ref.set_lock s lock
          {| Ref.held := true; Ref.dep_map := recorded |})).
Proof.
  intros Hfree. unfold rust_helper_spin_lock. rewrite run_exec.
  cbn [kexec Ref.kernel Ref.ref_kexec]. unfold Ref.spin_lock.
  rewrite Hfree. reflexivity.
Qed.

Lemma run_spin_unlock (cfg : Kconfig) {H : KernelHeaders} (s : Ref.state)
  (lock : val) (l : Ref.spinlock) :
  Ref.locks s lock = Some l ->
  run (Ref.kernel cfg) (rust_helper_spin_unlock lock) s
  = ([OExec K.spin_unlock [lock]],
     Done tt
       (Ref.set_lock s lock
          {| Ref.held := false; Ref.dep_map := Ref.dep_map l |})).
Proof.
  intros Hl. unfold rust_helper_spin_unlock. rewrite run_exec.
  cbn [kexec Ref.kernel Ref.ref_kexec]. unfold Ref.spin_unlock.
  rewrite Hl. reflexivity.
Qed.

(** ** Work items *)

(** C4.  Against the reference kernel, the work-item initialiser returns
    after exactly the five sub-steps of [work_init_steps], in that order;
    in the state it leaves, the item's [func] member holds the supplied
    callback and its [entry] node is an empty list.  The [func] member
    must not share its address with the node's [next] link. *)
Theorem init_work_with_key_initialises (cfg : Kconfig) {H : KernelHeaders}
  (s : Ref.state) (work func onstack name key : val) :
  offsetof_work_struct_func
  <> offsetof_work_struct_entry + offsetof_list_head_next ->
  exists s' : Ref.state,
    run (Ref.kernel cfg)
      (rust_helper_init_work_with_key work func onstack name key) s
    = (work_init_steps work func onstack name key, Done tt s')
    /\ Ref.mem s' (field work offsetof_work_struct_func) = func
    /\ Ref.list_empty (field work offsetof_work_struct_entry) s' = true.
Proof.
  intros Hlayout.
  eexists. split; [reflexivity|]. split.
  - cbn. apply upd_same.
  - unfold Ref.list_empty. apply Z.eqb_eq. cbn.
    rewrite upd_other by (unfold field; lia).
    unfold Ref.upd.
    destruct (_ =? field _ offsetof_list_head_prev); [reflexivity|].
    rewrite Z.eqb_refl. reflexivity.
Qed.

(** C4 for a work item at address 1000 with callback 77, on an LP64
    layout. *)
Lemma init_work_with_key_initialises_witness :
  exists s' : Ref.state,
    run (Ref.kernel defconfig (H := lp64_headers))
      (rust_helper_init_work_with_key (H := lp64_headers) 1000 77 0 5 6)
      Ref.boot
    = (work_init_steps (H := lp64_headers) 1000 77 0 5 6, Done tt s')
    /\ Ref.mem s' 1024 = 77
    /\ Ref.list_empty (H := lp64_headers) 1008 s' = true.
Proof.
  apply (init_work_with_key_initialises defconfig (H := lp64_headers)
           Ref.boot 1000 77 0 5 6).
  simpl. lia.
Defined.

(** ** Spinlocks *)

(** C5.  Against the reference kernel, the spinlock initialiser takes one
    of two paths, chosen by [CONFIG_DEBUG_SPINLOCK]: with it, the lock is
    initialised through [__raw_spin_lock_init] and records the supplied
    name and lock-class key; without it, through [spin_lock_init], and the
    lock records neither.  Either way the lock is left free, the acquire
    shim then returns holding it, and the release shim then returns leaving
    it free again. *)
Theorem spin_lock_init_selects_path (cfg : Kconfig) {H : KernelHeaders}
  (s : Ref.state) (lock name key : val) :
  let Kn := Ref.kernel cfg in
  let debug := cfg CONFIG_DEBUG_SPINLOCK in
  let recorded := if debug then Some (name, key) else None in
  exists s1 s2 s3 : Ref.state,
    run Kn (rust_helper___spin_lock_init cfg lock name key) s
    = (spin_lock_init_steps debug lock name key, Done tt s1)
    /\ Ref.locks s1 lock
       = Some {| Ref.held := false; Ref.dep_map := recorded |}
    /\ run Kn (rust_helper_spin_lock lock) s1
       = ([OExec K.spin_lock [lock]], Done tt s2)
    /\ Ref.locks s2 lock
       = Some {| Ref.held := true; Ref.dep_map := recorded |}
    /\ run Kn (rust_helper_spin_unlock lock) s2
       = ([OExec K.spin_unlock [lock]], Done tt s3)
    /\ Ref.locks s3 lock
       = Some {| Ref.held := false; Ref.dep_map := recorded |}.
Proof.
  cbv zeta.
  set (recorded :=
         if cfg CONFIG_DEBUG_SPINLOCK then Some (name, key) else None).
  set (free := {| Ref.held := false; Ref.dep_map := recorded |}).
  set (taken := {| Ref.held := true; Ref.dep_map := recorded |}).
  exists (Ref.set_lock s lock free).
  exists (Ref.set_lock (Ref.set_lock s lock free) lock taken).
  exists (Ref.set_lock (Ref.set_lock (Ref.set_lock s lock free) lock taken)
            lock free).
  split; [|split; [|split; [|split; [|split]]]].
  - rewrite run_spin_lock_init. subst free recorded.
    unfold spin_lock_init_steps.
    destruct (cfg CONFIG_DEBUG_SPINLOCK); reflexivity.
  - apply locks_set_lock.
  - apply run_spin_lock_free, locks_set_lock.
  - apply locks_set_lock.
  - apply (run_spin_unlock cfg _ lock taken), locks_set_lock.
  - apply locks_set_lock.
Qed.

(** ** Request reference counts *)

(** C6.  Against the reference kernel, the increment-if-nonzero shim makes
    one call of the atomic primitive on the request's [ref] member.  On a
    count of 0 it returns false and leaves the state as it was; on a count
    of at least 1 it returns true, the count is one more than before and
    nothing else in memory changes. *)
Theorem req_ref_inc_not_zero_counts (cfg : Kconfig) {H : KernelHeaders}
  (s : Ref.state) (req : val) :
  let Kn := Ref.kernel cfg in
  let ref := field req offsetof_request_ref in
  (Ref.mem s ref = 0 ->
   run Kn (rust_helper_req_ref_inc_not_zero req) s
   = ([OCall K.atomic_inc_not_zero [ref]], Done (of_bool false) s))
  /\ (1 <= Ref.mem s ref ->
      exists s' : Ref.state,
        run Kn (rust_helper_req_ref_inc_not_zero req) s
        = ([OCall K.atomic_inc_not_zero [ref]], Done (of_bool true) s')
        /\ Ref.mem s' ref = Ref.mem s ref + 1
        /\ forall a : val, a <> ref -> Ref.mem s' a = Ref.mem s a).
Proof.
  cbv zeta. unfold rust_helper_req_ref_inc_not_zero.
  rewrite run_call. cbn [kcall Ref.kernel Ref.ref_kcall].
  unfold Ref.atomic_inc_not_zero. split.
  - intros Hzero. rewrite Hzero. reflexivity.
  - intros Hpos.
    destruct (Z.eqb_spec (Ref.mem s (field req offsetof_request_ref)) 0)
      as [Hzero|_]; [lia|].
    eexists. split; [reflexivity|]. cbn. split.
    + apply upd_same.
    + intros a Ha. apply upd_other, Ha.
Qed.

(** C6 on a request at address 3000: with its count at 0, and with its
    count at 3. *)
Lemma req_ref_inc_not_zero_counts_witness :
  let Kn := Ref.kernel defconfig (H := lp64_headers) in
  let held := Ref.ref_kstore 3136 3 Ref.boot in
  run Kn (rust_helper_req_ref_inc_not_zero (H := lp64_headers) 3000) Ref.boot
  = ([OCall K.atomic_inc_not_zero [3136]], Done (of_bool false) Ref.boot)
  /\ exists s' : Ref.state,
      run Kn (rust_helper_req_ref_inc_not_zero (H := lp64_headers) 3000) held
      = ([OCall K.atomic_inc_not_zero [3136]], Done (of_bool true) s')
      /\ Ref.mem s' 3136 = 3 + 1
      /\ forall a : val, a <> 3136 -> Ref.mem s' a = Ref.mem held a.
Proof.
  split.
  - apply (proj1 (req_ref_inc_not_zero_counts defconfig (H := lp64_headers)
                    Ref.boot 3000)).
    reflexivity.
  - apply (proj2 (req_ref_inc_not_zero_counts defconfig (H := lp64_headers)
                    (Ref.ref_kstore 3136 3 Ref.boot) 3000)).
    vm_compute. discriminate.
Defined.

(** ** Fatal abort *)

(** C8.  Against every kernel whose [BUG] never returns, no call of
    [rust_helper_BUG] returns. *)
Theorem BUG_shim_never_returns (Kn : Kernel) :
  (forall s : kstate Kn, returns (kexec Kn K.BUG [] s) = false) ->
  forall s : kstate Kn, returns (result Kn rust_helper_BUG s) = false.
Proof.
  intros Hbug s. unfold result, rust_helper_BUG.
  rewrite run_exec. apply Hbug.
Qed.

(** C8 against the reference kernel, whose [BUG] is a fatal trap. *)
Lemma BUG_shim_never_returns_witness :
  returns
    (result (Ref.kernel defconfig (H := lp64_headers)) rust_helper_BUG
       Ref.boot)
  = false.
Proof.
  apply (BUG_shim_never_returns (Ref.kernel defconfig (H := lp64_headers))).
  intros s. reflexivity.
Defined.

(** ** The PCI driver-data shims *)

(** C10.  The two definitions of [rust_helper_pci_set_drvdata] and of
    [rust_helper_pci_get_drvdata], one in each helper file, behave alike on
    every device handle and data pointer against every kernel: same trace,
    same result, same final state; and a call through either symbol runs
    the same program whichever file provides it. *)
Theorem pci_drvdata_shims_agree (cfg : Kconfig) {H : KernelHeaders}
  (Kn : Kernel) (s : kstate Kn) (pdev data : val) :
  run Kn (HelpersCombined.rust_helper_pci_set_drvdata pdev data) s
  = run Kn (Part000.rust_helper_pci_set_drvdata pdev data) s
  /\ run Kn (HelpersCombined.rust_helper_pci_get_drvdata pdev) s
     = run Kn (Part000.rust_helper_pci_get_drvdata pdev) s
  /\ Forall
       (fun w => forall args : list val,
            HelpersCombined.entry cfg w args = Part000.entry w args)
       [Sym.rust_helper_pci_set_drvdata; Sym.rust_helper_pci_get_drvdata].
Proof.
  split; [reflexivity|]. split; [reflexivity|].
  repeat constructor.
Qed.

(** ** The model on concrete inputs *)

Example ERR_PTR_ENOMEM_64 :
  Ref.ERR_PTR defconfig (-12) = 18446744073709551604.
Proof. reflexivity. Qed.

Example ERR_PTR_ENOMEM_32 : Ref.ERR_PTR small_config (-12) = 4294967284.
Proof. reflexivity. Qed.

Example IS_ERR_boundary :
  Ref.IS_ERR defconfig (Ref.ERR_PTR defconfig (-4095)) = true
  /\ Ref.IS_ERR defconfig (Ref.ERR_PTR defconfig (-4096)) = false
  /\ Ref.IS_ERR defconfig 0 = false.
Proof. repeat split. Qed.

Example init_work_trace_at_1000 :
  trace (Ref.kernel defconfig (H := lp64_headers))
    (rust_helper_init_work_with_key (H := lp64_headers) 1000 77 1 5 6)
    Ref.boot
  = [ OExec K.__init_work [1000; 1];
      OStore 1000 68719476704;
      OExec K.lockdep_init_map [1032; 5; 6; 0];
      OExec K.INIT_LIST_HEAD [1008];
      OStore 1024 77 ].
Proof. reflexivity. Qed.

Example spin_lock_init_trace_debug :
  trace (Ref.kernel debug_config (H := lp64_headers))
    (rust_helper___spin_lock_init debug_config (H := lp64_headers) 2000 5 6)
    Ref.boot
  = [ OCall K.spinlock_check [2000];
      OExec K.__raw_spin_lock_init [2000; 5; 6; 2] ].
Proof. reflexivity. Qed.

Example spin_lock_init_trace_plain :
  trace (Ref.kernel defconfig (H := lp64_headers))
    (rust_helper___spin_lock_init defconfig (H := lp64_headers) 2000 5 6)
    Ref.boot
  = [ OExec K.spin_lock_init [2000] ].
Proof. reflexivity. Qed.

(** Without initialisation the reference kernel's lock is not usable, and
    a lock taken twice is never got. *)
Example spin_lock_needs_init :
  returns
    (result (Ref.kernel defconfig (H := lp64_headers))
       (rust_helper_spin_lock 2000) Ref.boot)
  = false.
Proof. reflexivity. Qed.

Example spin_lock_twice_spins :
  returns
    (result (Ref.kernel defconfig (H := lp64_headers))
       (rust_helper___spin_lock_init defconfig (H := lp64_headers) 2000 5 6 ;;
        rust_helper_spin_lock 2000 ;;
        rust_helper_spin_lock 2000)
       Ref.boot)
  = false.
Proof. reflexivity. Qed.

Example build_on_narrow_size_t :
  compile narrow_size_t defconfig helpers_combined_c = inr size_t_message.
Proof. reflexivity. Qed.

Example exports_of_small_config :
  map (exported small_config helpers_combined_c)
    (Sym.rust_helper_folio_alloc :: Sym.rust_helper_folio_page
     :: wide_mmio_shims)
  = [true; false; false; false; false; false].
Proof. reflexivity. Qed.

Example exports_of_pci_file :
  match compile lp64 defconfig part_000 with
  | inl img => ksymtab img
  | inr _ => []
  end
  = [ Sym.rust_helper_pci_set_drvdata; Sym.rust_helper_pci_get_drvdata;
      Sym.rust_helper_pci_resource_start ].
Proof. reflexivity. Qed.

(** * Further properties of the helper files *)

(** ** The symbol tables *)

Lemma mem_sym_In (w : Sym.t) (l : list Sym.t) :
  mem_sym w l = true <-> In w l.
Proof.
  unfold mem_sym. rewrite existsb_exists. split.
  - intros [x [Hin Heq]]. apply Sym.internal_t_dec_bl in Heq.
    subst; exact Hin.
  - intros Hin. exists w. split; [exact Hin|].
    apply Sym.internal_t_dec_lb; reflexivity.
Qed.

Lemma distinct_NoDup (l : list Sym.t) : distinct l = true -> NoDup l.
Proof.
  induction l as [|w rest IH]; simpl; intros Hd; constructor.
  - apply andb_prop in Hd. destruct Hd as [Hm _].
    intros Hin. apply mem_sym_In in Hin. rewrite Hin in Hm. discriminate.
  - apply IH. apply andb_prop in Hd. apply Hd.
Qed.

(** X1.  Under every configuration and in both helper files, no function
    is defined twice, no symbol is exported twice, and every exported
    symbol is one of the functions the configuration compiles in: a guard
    never separates an [EXPORT_SYMBOL_GPL] from its function. *)
Theorem symbol_tables_well_formed (cfg : Kconfig) :
  Forall
    (fun tu =>
       NoDup (functions (preprocess cfg tu))
       /\ NoDup (exports (preprocess cfg tu))
       /\ forall w : Sym.t, exported cfg tu w = true -> defined cfg tu w = true)
    [helpers_combined_c; part_000].
Proof.
  assert (Hb : forallb
                 (fun tu =>
                    distinct (functions (preprocess cfg tu))
                    && distinct (exports (preprocess cfg tu))
                    && included (exports (preprocess cfg tu))
                         (functions (preprocess cfg tu)))
                 [helpers_combined_c; part_000] = true)
    by (cbn [forallb]; by_config cfg; vm_compute; reflexivity).
  rewrite forallb_forall in Hb. apply Forall_forall. intros tu Htu.
  specialize (Hb tu Htu).
  apply andb_prop in Hb; destruct Hb as [Hb Hincl].
  apply andb_prop in Hb; destruct Hb as [Hf He].
  split; [apply distinct_NoDup, Hf|]. split; [apply distinct_NoDup, He|].
  intros w Hw. unfold exported, defined in *.
  unfold included in Hincl. rewrite forallb_forall in Hincl.
  apply Hincl, mem_sym_In, Hw.
Qed.

(** X1 at the default configuration and [rust_helper_readl]. *)
Lemma symbol_tables_well_formed_witness :
  defined defconfig helpers_combined_c Sym.rust_helper_readl = true.
Proof.
  pose proof (symbol_tables_well_formed defconfig) as Hwf.
  apply Forall_inv in Hwf.
  apply (proj2 (proj2 Hwf) Sym.rust_helper_readl).
  reflexivity.
Defined.

(** X2.  What the helpers compile to depends on the configuration only
    through [CONFIG_NUMA] and [CONFIG_64BIT]: two configurations that agree
    on these give the same image (or the same failure) on every platform,
    whatever [CONFIG_DEBUG_SPINLOCK] is. *)
Theorem image_depends_on_numa_and_64bit (pf : platform)
  (cfg cfg' : Kconfig) :
  cfg CONFIG_NUMA = cfg' CONFIG_NUMA ->
  cfg CONFIG_64BIT = cfg' CONFIG_64BIT ->
  compile pf cfg helpers_combined_c = compile pf cfg' helpers_combined_c.
Proof.
  intros Hn Hw. unfold compile.
  rewrite (preprocess_config_of cfg), (preprocess_config_of cfg'), Hn, Hw.
  destruct (cfg' CONFIG_NUMA), (cfg' CONFIG_64BIT),
    (cfg CONFIG_DEBUG_SPINLOCK), (cfg' CONFIG_DEBUG_SPINLOCK);
    vm_compute; reflexivity.
Qed.

(** X2 for the default configuration and its lock-debugging variant. *)
Lemma image_depends_on_numa_and_64bit_witness :
  compile lp64 defconfig helpers_combined_c
  = compile lp64 debug_config helpers_combined_c.
Proof.
  apply (image_depends_on_numa_and_64bit lp64 defconfig debug_config);
    reflexivity.
Defined.

(** X3.  Only the five guarded shims come and go with the configuration:
    every other symbol is compiled in, and exported, under one
    configuration exactly when it is under any other. *)
Theorem unguarded_shims_are_config_independent (cfg cfg' : Kconfig)
  (w : Sym.t) :
  mem_sym w conditional_shims = false ->
  defined cfg helpers_combined_c w = defined cfg' helpers_combined_c w
  /\ exported cfg helpers_combined_c w = exported cfg' helpers_combined_c w.
Proof.
  intros Hw.
  assert (Href : forall c : Kconfig,
             defined c helpers_combined_c w
             = defined defconfig helpers_combined_c w
             /\ exported c helpers_combined_c w
                = exported defconfig helpers_combined_c w).
  { intros c. by_config c; destruct w; vm_compute in Hw;
      try discriminate Hw; split; vm_compute; reflexivity. }
  destruct (Href cfg) as [-> ->]. destruct (Href cfg') as [-> ->].
  split; reflexivity.
Qed.

(** X3 at [rust_helper_readl], between a 64-bit NUMA configuration and a
    32-bit one without NUMA. *)
Lemma unguarded_shims_are_config_independent_witness :
  defined defconfig helpers_combined_c Sym.rust_helper_readl
  = defined small_config helpers_combined_c Sym.rust_helper_readl
  /\ exported defconfig helpers_combined_c Sym.rust_helper_readl
     = exported small_config helpers_combined_c Sym.rust_helper_readl.
Proof.
  apply (unguarded_shims_are_config_independent defconfig small_config
           Sym.rust_helper_readl).
  reflexivity.
Defined.

(** X4.  The separate PCI helper file has no guard and no static
    assertion: it compiles on every platform and under every configuration
    to the same image, which defines and exports its three shims. *)
Theorem pci_file_builds_everywhere (pf : platform) (cfg : Kconfig) :
  compile pf cfg part_000
  = inl {| text := [ Sym.rust_helper_pci_set_drvdata;
                     Sym.rust_helper_pci_get_drvdata;
                     Sym.rust_helper_pci_resource_start ];
           ksymtab := [ Sym.rust_helper_pci_set_drvdata;
                        Sym.rust_helper_pci_get_drvdata;
                        Sym.rust_helper_pci_resource_start ] |}.
Proof. by_config cfg; vm_compute; reflexivity. Qed.

(** X5.  Under every configuration the two helper files define exactly two
    symbols in common, the PCI driver-data shims; in particular
    [rust_helper_pci_resource_start] exists only in the PCI file, and the
    two files cannot go into one image without a duplicate definition. *)
Theorem files_share_only_pci_drvdata (cfg : Kconfig) (w : Sym.t) :
  defined cfg helpers_combined_c w && defined cfg part_000 w
  = mem_sym w pci_drvdata_shims.
Proof. by_config cfg; destruct w; vm_compute; reflexivity. Qed.

(** ** Names *)



(** ** What a shim does at the kernel boundary *)

Lemma trace_bind_ret {A B : Type} (Kn : Kernel) (c : prog A) (f : A -> B)
  (s : kstate Kn) :
  trace Kn (bind c (fun x => Ret (f x))) s = trace Kn c s.
Proof.
  unfold trace. revert s.
  induction c as [a|p args k IH|p args k IH|addr v k IH]; intros s; simpl.
  - reflexivity.
  - destruct (kcall Kn p args s) as [v s'|s']; simpl;
      [rewrite IH|]; reflexivity.
  - destruct (kexec Kn p args s) as [u s'|s']; simpl;
      [rewrite IH|]; reflexivity.
  - rewrite IH. reflexivity.
Qed.

Lemma trace_returning (Kn : Kernel) (c : prog val) (s : kstate Kn) :
  trace Kn (returning c) s = trace Kn c s.
Proof. apply (trace_bind_ret Kn c Some). Qed.

Lemma trace_returning_void (Kn : Kernel) (c : prog unit) (s : kstate Kn) :
  trace Kn (returning_void c) s = trace Kn c s.
Proof. apply (trace_bind_ret Kn c (fun _ => @None val)). Qed.

Lemma init_work_trace_cases (Kn : Kernel) {H : KernelHeaders}
  (work func onstack name key : val) (s : kstate Kn) :
  In (trace Kn (rust_helper_init_work_with_key work func onstack name key) s)
    (map (fun n => firstn n (work_init_steps work func onstack name key))
       [1; 3; 4; 5]%nat).
Proof.
  unfold trace, rust_helper_init_work_with_key, work_init_steps.
  rewrite run_bind_exec.
  destruct (kexec Kn K.__init_work _ s) as [[] s1|s1];
    [|left; reflexivity].
  rewrite run_bind_store, run_bind_exec.
  destruct (kexec Kn K.lockdep_init_map _ _) as [[] s2|s2];
    [|right; left; reflexivity].
  rewrite run_bind_exec.
  destruct (kexec Kn K.INIT_LIST_HEAD _ s2) as [[] s3|s3];
    [do 3 right; left|do 2 right; left]; reflexivity.
Qed.

(** X7.  Against every kernel, from every state and on every argument
    list, a call through a shim of either file makes between one and five
    operations at the kernel boundary.  It makes exactly one unless the
    shim is the spinlock initialiser (at most two, and one without
    [CONFIG_DEBUG_SPINLOCK]) or the work-item initialiser; and only the
    work-item initialiser ever stores through a pointer itself. *)
Theorem shim_boundary_footprint (cfg : Kconfig) {H : KernelHeaders}
  (Kn : Kernel) (s : kstate Kn) (w : Sym.t) (args : list val)
  (c : prog ret) :
  HelpersCombined.entry cfg w args = Some c
  \/ Part000.entry w args = Some c ->
  let t := trace Kn c s in
  (1 <= List.length t <= 5)%nat
  /\ (mem_sym w [ Sym.rust_helper___spin_lock_init;
                  Sym.rust_helper_init_work_with_key ] = false ->
      List.length t = 1%nat)
  /\ (Sym.t_beq w Sym.rust_helper___spin_lock_init = true ->
      (List.length t <= 2)%nat
      /\ (cfg CONFIG_DEBUG_SPINLOCK = false -> List.length t = 1%nat))
  /\ (Sym.t_beq w Sym.rust_helper_init_work_with_key = false ->
      existsb is_store t = false).
Proof.
  intros He. cbv zeta.
  destruct (wrapped w) as [c0|] eqn:Hw.
  - assert (Hc : c = direct c0 args).
    { destruct He as [He|He].
      - exact (combined_entry_is_direct cfg w c0 args c Hw He).
      - exact (part_000_entry_is_direct w c0 args c Hw He). }
    subst c. rewrite trace_direct.
    destruct c0; simpl; repeat split; intros; try reflexivity; lia.
  - destruct He as [He|He].
    + destruct w; simpl in Hw; try discriminate Hw;
        cbv [HelpersCombined.entry func proc] in He;
        split_args He; injection He as <-;
        rewrite ?trace_returning, ?trace_returning_void.
      * unfold trace, rust_helper_req_ref_inc_not_zero.
        rewrite run_call. simpl.
        repeat split; intros; try reflexivity; try discriminate; lia.
      * unfold trace, rust_helper_req_ref_put_and_test.
        rewrite run_call. simpl.
        repeat split; intros; try reflexivity; try discriminate; lia.
      * unfold trace. rewrite run_spin_lock_init.
        destruct (cfg CONFIG_DEBUG_SPINLOCK);
          [destruct (kcall Kn K.spinlock_check _ s)|]; simpl;
          repeat split; intros; try reflexivity; try discriminate; lia.
      * pose proof (init_work_trace_cases Kn v v0 v1 v2 v3 s) as Hcases.
        simpl in Hcases.
        destruct Hcases as [<-|[<-|[<-|[<-|[]]]]]; simpl;
          repeat split; intros; try reflexivity; try discriminate; lia.
    + destruct w; simpl in Hw; try discriminate Hw; discriminate He.
Qed.

(** X7 for a call of [rust_helper_writel] against the reference kernel. *)
Lemma shim_boundary_footprint_witness :
  let t := trace (Ref.kernel defconfig (H := lp64_headers))
             (returning_void (rust_helper_writel 7 4096)) Ref.boot in
  List.length t = 1%nat /\ existsb is_store t = false.
Proof.
  cbv zeta.
  pose proof (shim_boundary_footprint defconfig (H := lp64_headers)
                (Ref.kernel defconfig (H := lp64_headers)) Ref.boot
                Sym.rust_helper_writel [7; 4096]
                (returning_void (rust_helper_writel 7 4096))
                (or_introl eq_refl)) as Hfp.
  cbv zeta in Hfp. destruct Hfp as [_ [Hone [_ Hstore]]].
  split; [apply Hone|apply Hstore]; reflexivity.
Defined.

(** X8.  Against every kernel whose [BUG] never returns, whatever a caller
    sequences after [rust_helper_BUG] never reaches the kernel: the trace
    is the single [BUG] and the whole never returns. *)
Theorem nothing_runs_after_BUG_shim (Kn : Kernel) (A : Type)
  (k : prog A) :
  (forall s : kstate Kn, returns (kexec Kn K.BUG [] s) = false) ->
  forall s : kstate Kn,
    trace Kn (rust_helper_BUG ;; k) s = [OExec K.BUG []]
    /\ returns (result Kn (rust_helper_BUG ;; k) s) = false.
Proof.
  intros Hbug s. unfold trace, result, rust_helper_BUG.
  rewrite run_bind_exec. specialize (Hbug s).
  destruct (kexec Kn K.BUG [] s) as [[] s'|s'];
    [discriminate Hbug|split; reflexivity].
Qed.

(** X8 with a write sequenced after the abort, against the reference
    kernel. *)
Lemma nothing_runs_after_BUG_shim_witness :
  trace (Ref.kernel defconfig (H := lp64_headers))
    (rust_helper_BUG ;; rust_helper_writel 7 4096) Ref.boot
  = [OExec K.BUG []]
  /\ returns
       (result (Ref.kernel defconfig (H := lp64_headers))
          (rust_helper_BUG ;; rust_helper_writel 7 4096) Ref.boot)
     = false.
Proof.
  apply (nothing_runs_after_BUG_shim
           (Ref.kernel defconfig (H := lp64_headers)) unit
           (rust_helper_writel 7 4096)).
  intros s. reflexivity.
Defined.

(** ** Work items, in full *)




(** ** Request reference counts, composed *)

Lemma run_req_ref_put_and_test (cfg : Kconfig) {H : KernelHeaders}
  (s : Ref.state) (req : val) :
  run (Ref.kernel cfg) (rust_helper_req_ref_put_and_test req) s
  = ([OCall K.atomic_dec_and_test [field req offsetof_request_ref]],
     Done (of_bool (Ref.mem s (field req offsetof_request_ref) =? 1))
       (Ref.set_mem s
          (Ref.upd (Ref.mem s) (field req offsetof_request_ref)
             (Ref.mem s (field req offsetof_request_ref) - 1)))).
Proof.
  unfold rust_helper_req_ref_put_and_test. rewrite run_call.
  cbn [kcall Ref.kernel Ref.ref_kcall]. unfold Ref.atomic_dec_and_test.
  cbv zeta. do 3 f_equal.
  destruct (Z.eqb_spec (Ref.mem s (field req offsetof_request_ref)) 1),
    (Z.eqb_spec (Ref.mem s (field req offsetof_request_ref) - 1) 0);
    try reflexivity; lia.
Qed.

Lemma run_req_ref_inc_not_zero (cfg : Kconfig) {H : KernelHeaders}
  (s : Ref.state) (req : val) :
  run (Ref.kernel cfg) (rust_helper_req_ref_inc_not_zero req) s
  = ([OCall K.atomic_inc_not_zero [field req offsetof_request_ref]],
     Ref.atomic_inc_not_zero (field req offsetof_request_ref) s).
Proof. unfold rust_helper_req_ref_inc_not_zero. apply run_call. Qed.

(** X10.  Against the reference kernel, the put-and-test shim makes one
    call of the atomic primitive on the request's [ref] member, lowers the
    count by exactly one, changes nothing else in memory, and returns true
    exactly when the count was 1, that is when it has just reached 0. *)
Theorem req_ref_put_and_test_counts (cfg : Kconfig) {H : KernelHeaders}
  (s : Ref.state) (req : val) :
  let ref := field req offsetof_request_ref in
  exists s' : Ref.state,
    run (Ref.kernel cfg) (rust_helper_req_ref_put_and_test req) s
    = ([OCall K.atomic_dec_and_test [ref]],
       Done (of_bool (Ref.mem s ref =? 1)) s')
    /\ Ref.mem s' ref = Ref.mem s ref - 1
    /\ forall a : val, a <> ref -> Ref.mem s' a = Ref.mem s a.
Proof.
  cbv zeta. eexists. split; [apply run_req_ref_put_and_test|].
  cbn. split; [apply upd_same|]. intros a Ha. apply upd_other, Ha.
Qed.

(** X11.  Against the reference kernel, a request whose last reference is
    put cannot be revived: from a count of 1 the put-and-test shim returns
    true, and in the state it leaves the increment-if-nonzero shim returns
    false and changes nothing. *)
Theorem req_ref_dead_stays_dead (cfg : Kconfig) {H : KernelHeaders}
  (s : Ref.state) (req : val) :
  let Kn := Ref.kernel cfg in
  let ref := field req offsetof_request_ref in
  Ref.mem s ref = 1 ->
  exists s1 : Ref.state,
    run Kn (rust_helper_req_ref_put_and_test req) s
    = ([OCall K.atomic_dec_and_test [ref]], Done (of_bool true) s1)
    /\ Ref.mem s1 ref = 0
    /\ run Kn (rust_helper_req_ref_inc_not_zero req) s1
       = ([OCall K.atomic_inc_not_zero [ref]], Done (of_bool false) s1).
Proof.
  cbv zeta. intros Hone. eexists.
  split; [rewrite run_req_ref_put_and_test, Hone; reflexivity|].
  split; [cbn; apply upd_same|].
  rewrite run_req_ref_inc_not_zero. unfold Ref.atomic_inc_not_zero.
  cbn [Ref.mem Ref.set_mem]. rewrite upd_same. reflexivity.
Qed.

(** X11 for a request at address 3000 holding one reference. *)
Lemma req_ref_dead_stays_dead_witness :
  let Kn := Ref.kernel defconfig (H := lp64_headers) in
  exists s1 : Ref.state,
    run Kn (rust_helper_req_ref_put_and_test (H := lp64_headers) 3000)
      (Ref.ref_kstore 3136 1 Ref.boot)
    = ([OCall K.atomic_dec_and_test [3136]], Done (of_bool true) s1)
    /\ Ref.mem s1 3136 = 0
    /\ run Kn (rust_helper_req_ref_inc_not_zero (H := lp64_headers) 3000) s1
       = ([OCall K.atomic_inc_not_zero [3136]], Done (of_bool false) s1).
Proof.
  apply (req_ref_dead_stays_dead defconfig (H := lp64_headers)
           (Ref.ref_kstore 3136 1 Ref.boot) 3000).
  reflexivity.
Defined.

(** X12.  Against the reference kernel, taking and then putting a
    reference on a request whose count is at least 1 is a round trip: the
    increment returns true, the put that follows returns false, and every
    word of memory, the count included, is as it was. *)
Theorem req_ref_get_put_round_trip (cfg : Kconfig) {H : KernelHeaders}
  (s : Ref.state) (req : val) :
  let Kn := Ref.kernel cfg in
  let ref := field req offsetof_request_ref in
  1 <= Ref.mem s ref ->
  exists s1 s2 : Ref.state,
    run Kn (rust_helper_req_ref_inc_not_zero req) s
    = ([OCall K.atomic_inc_not_zero [ref]], Done (of_bool true) s1)
    /\ run Kn (rust_helper_req_ref_put_and_test req) s1
       = ([OCall K.atomic_dec_and_test [ref]], Done (of_bool false) s2)
    /\ forall a : val, Ref.mem s2 a = Ref.mem s a.
Proof.
  cbv zeta. intros Hpos.
  set (ref := field req offsetof_request_ref) in *.
  exists (Ref.set_mem s (Ref.upd (Ref.mem s) ref (Ref.mem s ref + 1))).
  eexists. split; [|split].
  - rewrite run_req_ref_inc_not_zero. unfold Ref.atomic_inc_not_zero.
    fold ref. destruct (Z.eqb_spec (Ref.mem s ref) 0); [lia|reflexivity].
  - rewrite run_req_ref_put_and_test. fold ref.
    cbn [Ref.mem Ref.set_mem]. rewrite upd_same.
    destruct (Z.eqb_spec (Ref.mem s ref + 1) 1); [lia|reflexivity].
  - intros a. cbn. unfold Ref.upd.
    destruct (Z.eqb_spec a ref) as [->|Hne]; [lia|reflexivity].
Qed.

(** X12 for a request at address 3000 holding three references. *)
Lemma req_ref_get_put_round_trip_witness :
  let Kn := Ref.kernel defconfig (H := lp64_headers) in
  let s := Ref.ref_kstore 3136 3 Ref.boot in
  exists s1 s2 : Ref.state,
    run Kn (rust_helper_req_ref_inc_not_zero (H := lp64_headers) 3000) s
    = ([OCall K.atomic_inc_not_zero [3136]], Done (of_bool true) s1)
    /\ run Kn (rust_helper_req_ref_put_and_test (H := lp64_headers) 3000) s1
       = ([OCall K.atomic_dec_and_test [3136]], Done (of_bool false) s2)
    /\ forall a : val, Ref.mem s2 a = Ref.mem s a.
Proof.
  apply (req_ref_get_put_round_trip defconfig (H := lp64_headers)
           (Ref.ref_kstore 3136 3 Ref.boot) 3000).
  vm_compute. discriminate.
Defined.

(** ** Error pointers beyond the error codes *)

Lemma as_ulong_of_long (cfg : Kconfig) (e : Z) :
  is_long cfg e ->
  Ref.as_ulong cfg e = if e <? 0 then e + 2 ^ BITS_PER_LONG cfg else e.
Proof.
  intros He. destruct (word_modulus cfg) as [Hw Hm].
  unfold is_long, Ref.MAX_ERRNO in *. unfold Ref.as_ulong.
  destruct (Z.ltb_spec e 0).
  - apply mod_of_negative. lia.
  - apply Z.mod_small. lia.
Qed.

Lemma as_long_of_pointer (cfg : Kconfig) (p : Z) :
  0 <= p < 2 ^ BITS_PER_LONG cfg ->
  Ref.as_long cfg p
  = if p <? 2 ^ (BITS_PER_LONG cfg - 1) then p
    else p - 2 ^ BITS_PER_LONG cfg.
Proof.
  intros Hp. unfold Ref.as_long.
  rewrite (as_ulong_pointer cfg p Hp). reflexivity.
Qed.

Lemma IS_ERR_of_pointer (cfg : Kconfig) (p : Z) :
  0 <= p < 2 ^ BITS_PER_LONG cfg ->
  Ref.IS_ERR cfg p = (2 ^ BITS_PER_LONG cfg - Ref.MAX_ERRNO <=? p).
Proof.
  intros Hp. destruct (word_modulus cfg) as [Hw Hm].
  unfold Ref.IS_ERR. rewrite (as_ulong_pointer cfg p Hp).
  rewrite (as_ulong_errno cfg (- Ref.MAX_ERRNO))
    by (unfold Ref.is_errno, Ref.MAX_ERRNO; lia).
  f_equal. lia.
Qed.

Ltac compare_cases :=
  repeat match goal with
         | |- context [?a <? ?b] => destruct (Z.ltb_spec a b)
         | |- context [?a <=? ?b] => destruct (Z.leb_spec a b)
         end;
  cbn [andb]; try reflexivity; try lia.

(** X13.  Against the reference kernel of either word size, for every
    [long] [e] whatever, the encoding shim returns a pointer from which
    the decoding shim gives [e] back, and the test shim answers true on
    that pointer exactly when [e] is an error code in [-MAX_ERRNO .. -1]:
    the encodings of 0 and of codes below [-MAX_ERRNO] are not error
    pointers. *)
Theorem err_ptr_of_any_long (cfg : Kconfig) {H : KernelHeaders}
  (s : Ref.state) (e : Z) :
  let Kn := Ref.kernel cfg in
  is_long cfg e ->
  exists p : val,
    run Kn (rust_helper_ERR_PTR e) s = ([OCall K.ERR_PTR [e]], Done p s)
    /\ 0 <= p < 2 ^ BITS_PER_LONG cfg
    /\ run Kn (rust_helper_PTR_ERR p) s = ([OCall K.PTR_ERR [p]], Done e s)
    /\ run Kn (rust_helper_IS_ERR p) s
       = ([OCall K.IS_ERR [p]], Done (of_bool (is_errno_b e)) s).
Proof.
  cbv zeta. intros He. destruct (word_modulus cfg) as [Hw Hm].
  pose proof (as_ulong_of_long cfg e He) as Hu.
  assert (Hp : 0 <= Ref.ERR_PTR cfg e < 2 ^ BITS_PER_LONG cfg).
  { unfold Ref.ERR_PTR. rewrite Hu. unfold is_long, Ref.MAX_ERRNO in *.
    destruct (Z.ltb_spec e 0); lia. }
  exists (Ref.ERR_PTR cfg e).
  unfold rust_helper_ERR_PTR, rust_helper_IS_ERR, rust_helper_PTR_ERR.
  rewrite !run_call. cbn [kcall Ref.kernel Ref.ref_kcall].
  split; [reflexivity|]. split; [exact Hp|].
  unfold Ref.PTR_ERR. rewrite (as_long_of_pointer cfg _ Hp).
  rewrite (IS_ERR_of_pointer cfg _ Hp).
  unfold Ref.ERR_PTR in *. rewrite Hu in *.
  unfold is_errno_b, is_long, Ref.MAX_ERRNO in *.
  split; do 2 f_equal; compare_cases.
Qed.

(** X13 at the code 0, whose encoding is the null pointer, on a 64-bit
    kernel. *)
Lemma err_ptr_of_any_long_witness :
  let Kn := Ref.kernel defconfig (H := lp64_headers) in
  exists p : val,
    run Kn (rust_helper_ERR_PTR 0) Ref.boot
    = ([OCall K.ERR_PTR [0]], Done p Ref.boot)
    /\ 0 <= p < 2 ^ BITS_PER_LONG defconfig
    /\ run Kn (rust_helper_PTR_ERR p) Ref.boot
       = ([OCall K.PTR_ERR [p]], Done 0 Ref.boot)
    /\ run Kn (rust_helper_IS_ERR p) Ref.boot
       = ([OCall K.IS_ERR [p]], Done (of_bool (is_errno_b 0)) Ref.boot).
Proof.
  apply (err_ptr_of_any_long defconfig (H := lp64_headers) Ref.boot 0).
  unfold is_long. simpl. lia.
Defined.

(** X14.  Against the reference kernel of either word size, for every
    pointer [p], the decoding shim returns a [long] that the encoding shim
    maps back to [p], and the test shim answers true on [p] exactly when
    that [long] is an error code: whatever [rust_helper_IS_ERR] accepts
    decodes to a code in [-MAX_ERRNO .. -1]. *)
Theorem ptr_err_of_any_pointer (cfg : Kconfig) {H : KernelHeaders}
  (s : Ref.state) (p : val) :
  let Kn := Ref.kernel cfg in
  0 <= p < 2 ^ BITS_PER_LONG cfg ->
  exists e : Z,
    run Kn (rust_helper_PTR_ERR p) s = ([OCall K.PTR_ERR [p]], Done e s)
    /\ is_long cfg e
    /\ run Kn (rust_helper_ERR_PTR e) s = ([OCall K.ERR_PTR [e]], Done p s)
    /\ run Kn (rust_helper_IS_ERR p) s
       = ([OCall K.IS_ERR [p]], Done (of_bool (is_errno_b e)) s).
Proof.
  cbv zeta. intros Hp. destruct (word_modulus cfg) as [Hw Hm].
  assert (He : is_long cfg (Ref.PTR_ERR cfg p)).
  { unfold Ref.PTR_ERR. rewrite (as_long_of_pointer cfg p Hp).
    unfold is_long, Ref.MAX_ERRNO in *.
    destruct (Z.ltb_spec p (2 ^ (BITS_PER_LONG cfg - 1))); lia. }
  exists (Ref.PTR_ERR cfg p).
  unfold rust_helper_ERR_PTR, rust_helper_IS_ERR, rust_helper_PTR_ERR.
  rewrite !run_call. cbn [kcall Ref.kernel Ref.ref_kcall].
  split; [reflexivity|]. split; [exact He|].
  unfold Ref.ERR_PTR. rewrite (as_ulong_of_long cfg _ He).
  rewrite (IS_ERR_of_pointer cfg p Hp).
  unfold Ref.PTR_ERR in *. rewrite (as_long_of_pointer cfg p Hp) in *.
  unfold is_errno_b, is_long, Ref.MAX_ERRNO in *.
  split; do 2 f_equal; compare_cases.
Qed.

(** X14 at the last address of a 64-bit address space, which decodes to
    [-1]. *)
Lemma ptr_err_of_any_pointer_witness :
  let Kn := Ref.kernel defconfig (H := lp64_headers) in
  let p := 18446744073709551615 in
  exists e : Z,
    run Kn (rust_helper_PTR_ERR p) Ref.boot
    = ([OCall K.PTR_ERR [p]], Done e Ref.boot)
    /\ is_long defconfig e
    /\ run Kn (rust_helper_ERR_PTR e) Ref.boot
       = ([OCall K.ERR_PTR [e]], Done p Ref.boot)
    /\ run Kn (rust_helper_IS_ERR p) Ref.boot
       = ([OCall K.IS_ERR [p]], Done (of_bool (is_errno_b e)) Ref.boot).
Proof.
  apply (ptr_err_of_any_pointer defconfig (H := lp64_headers) Ref.boot
           18446744073709551615).
  simpl. lia.
Defined.

(** ** Shims against a kernel that always returns *)

Lemma run_returns (Kn : Kernel) (A : Type) (c : prog A) :
  (forall p args s, returns (kcall Kn p args s) = true) ->
  (forall p args s, returns (kexec Kn p args s) = true) ->
  forall s : kstate Kn, returns (result Kn c s) = true.
Proof.
  intros Hcall Hexec. unfold result.
  induction c as [a|p args k IH|p args k IH|addr v k IH]; intros s; simpl.
  - reflexivity.
  - specialize (Hcall p args s).
    destruct (kcall Kn p args s) as [v s'|s']; [apply IH|discriminate].
  - specialize (Hexec p args s).
    destruct (kexec Kn p args s) as [u s'|s']; [apply IH|discriminate].
  - apply IH.
Qed.

(** X15.  Against a kernel all of whose primitives return, every call
    through a shim of either file returns, after all the boundary
    statements of its body: five for the work-item initialiser, two for
    the spinlock initialiser under [CONFIG_DEBUG_SPINLOCK], one for every
    other shim.  No shim blocks, loops or aborts of its own. *)
Theorem shims_return_when_kernel_does (cfg : Kconfig) {H : KernelHeaders}
  (Kn : Kernel) (w : Sym.t) (args : list val) (c : prog ret) :
  (forall p a s, returns (kcall Kn p a s) = true) ->
  (forall p a s, returns (kexec Kn p a s) = true) ->
  HelpersCombined.entry cfg w args = Some c
  \/ Part000.entry w args = Some c ->
  forall s : kstate Kn,
    returns (result Kn c s) = true
    /\ List.length (trace Kn c s) = boundary_ops cfg w.
Proof.
  intros Hcall Hexec He s.
  split; [apply run_returns; assumption|].
  destruct (wrapped w) as [c0|] eqn:Hw.
  - assert (Hc : c = direct c0 args).
    { destruct He as [He|He].
      - exact (combined_entry_is_direct cfg w c0 args c Hw He).
      - exact (part_000_entry_is_direct w c0 args c Hw He). }
    subst c. rewrite trace_direct.
    destruct w; simpl in Hw; try discriminate Hw;
      destruct c0; reflexivity.
  - destruct He as [He|He].
    + destruct w; simpl in Hw; try discriminate Hw;
        cbv [HelpersCombined.entry func proc] in He;
        split_args He; injection He as <-;
        rewrite ?trace_returning, ?trace_returning_void.
      * unfold trace, rust_helper_req_ref_inc_not_zero.
        rewrite run_call. reflexivity.
      * unfold trace, rust_helper_req_ref_put_and_test.
        rewrite run_call. reflexivity.
      * unfold trace, boundary_ops. rewrite run_spin_lock_init.
        cbn [Sym.t_beq andb].
        destruct (cfg CONFIG_DEBUG_SPINLOCK); [|reflexivity].
        specialize (Hcall K.spinlock_check [v] s).
        destruct (kcall Kn K.spinlock_check [v] s);
          [reflexivity|discriminate].
      * rewrite init_work_trace_complete; [reflexivity|].
        apply run_returns; assumption.
    + destruct w; simpl in Hw; try discriminate Hw; discriminate He.
Qed.

(** X15 for the spinlock initialiser under lock debugging, against the
    reference kernel with its fatal trap and its locks made to return. *)
Lemma shims_return_when_kernel_does_witness :
  let Kn := {| kstate := Ref.state;
               kcall := Ref.ref_kcall debug_config;
               kexec := fun _ _ s => Done tt s;
               kstore := Ref.ref_kstore |} in
  returns
    (result Kn
       (returning_void
          (rust_helper___spin_lock_init debug_config (H := lp64_headers)
             2000 5 6)) Ref.boot)
  = true
  /\ List.length
       (trace Kn
          (returning_void
             (rust_helper___spin_lock_init debug_config (H := lp64_headers)
                2000 5 6)) Ref.boot)
     = boundary_ops debug_config Sym.rust_helper___spin_lock_init.
Proof.
  cbv zeta.
  apply (shims_return_when_kernel_does debug_config (H := lp64_headers)
           {| kstate := Ref.state;
              kcall := Ref.ref_kcall debug_config;
              kexec := fun _ _ s => Done tt s;
              kstore := Ref.ref_kstore |}
           Sym.rust_helper___spin_lock_init [2000; 5; 6]).
  - intros p a s. cbn [kcall].
    destruct p; try reflexivity;
      destruct a as [|x [|y l]]; try reflexivity.
    unfold Ref.ref_kcall, Ref.atomic_inc_not_zero.
    destruct (Ref.mem s x =? 0); reflexivity.
  - intros p a s. reflexivity.
  - left. reflexivity.
Defined.
